(** * ETL pipeline template and skills packaging: a shallow embedding

    The development follows the two source files of the repository:

    - [skills/data-engineering-core/templates/complete_etl_pipeline.py]:
      class [DataPipeline] (Polars lazy frames, a DuckDB connection);
    - [scripts/build_skills.py]: function [build_skills].

    Polars and DuckDB are libraries the program calls; the parts of them the
    program uses are modelled below by their documented behaviour, each with
    a comment that names the call it stands for. *)

From Stdlib Require Import ZArith List String Ascii Bool Lia PrimFloat.
From stdpp Require Import base option list gmap strings sorting pretty.
Import ListNotations.

Set Warnings "-register-all".
Local Open Scope string_scope.
Local Open Scope Z_scope.

(** ** Exceptions and results *)

(** The exception classes the modelled calls can raise, by their Python
    names. [PipelineError] is the one class the source declares itself (it is
    never raised there); [UserException] stands for an exception raised by
    caller code inside the [with] block. *)
Inductive exn : Type :=
| FileNotFoundError
| JSONDecodeError
| KeyError (key : string)
| TypeError
| InvalidOperationError
| BinderException
| CatalogException
| ConnectionException
| PipelineError
| UserException.

Definition class_name (e : exn) : string :=
  match e with
  | FileNotFoundError => "FileNotFoundError"
  | JSONDecodeError => "JSONDecodeError"
  | KeyError _ => "KeyError"
  | TypeError => "TypeError"
  | InvalidOperationError => "InvalidOperationError"
  | BinderException => "BinderException"
  | CatalogException => "CatalogException"
  | ConnectionException => "ConnectionException"
  | PipelineError => "PipelineError"
  | UserException => "UserException"
  end.

Inductive result (A : Type) : Type :=
| Ok (a : A)
| Raise (e : exn).
Arguments Ok {A} a.
Arguments Raise {A} e.

#[global] Instance result_ret : MRet result := fun _ a => Ok a.
#[global] Instance result_bind : MBind result := fun _ _ f r =>
  match r with
  | Ok a => f a
  | Raise e => Raise e
  end.
#[global] Instance result_fmap : FMap result := fun _ _ f r =>
  match r with
  | Ok a => Ok (f a)
  | Raise e => Raise e
  end.

Definition is_ok {A} (r : result A) : bool :=
  match r with Ok _ => true | Raise _ => false end.

(** Elementwise evaluation of a fallible function over a column or a frame:
    the first failure aborts the whole evaluation. *)
Fixpoint traverse {A B} (f : A -> result B) (l : list A) : result (list B) :=
  match l with
  | [] => Ok []
  | x :: l' =>
      match f x with
      | Raise e => Raise e
      | Ok y =>
          match traverse f l' with
          | Raise e => Raise e
          | Ok ys => Ok (y :: ys)
          end
      end
  end.

(** ** Calendar: dates and timestamps as the engines store them

    A Polars [Date] and a DuckDB [DATE] are a number of days since
    1970-01-01; a Polars [Datetime] (microsecond unit) and a DuckDB
    [TIMESTAMP] are a number of microseconds since 1970-01-01T00:00:00. *)
Module Calendar.

Definition is_leap (y : Z) : bool :=
  ((y mod 4 =? 0) && negb (y mod 100 =? 0)) || (y mod 400 =? 0).

Definition days_in_month (y m : Z) : Z :=
  if m =? 2 then (if is_leap y then 29 else 28)
  else if (m =? 4) || (m =? 6) || (m =? 9) || (m =? 11) then 30
  else 31.

(** Day number of the civil date y-m-d in the proleptic Gregorian calendar. *)
Definition days_from_civil (y m d : Z) : Z :=
  let y' := if m <=? 2 then y - 1 else y in
  let era := y' / 400 in
  let yoe := y' - era * 400 in
  let mp := (m + 9) mod 12 in
  let doy := (153 * mp + 2) / 5 + d - 1 in
  let doe := yoe * 365 + yoe / 4 - yoe / 100 + doy in
  era * 146097 + doe - 719468.

Definition us_per_second : Z := 1000000.
Definition us_per_day : Z := 86400 * us_per_second.

(** [datetime(y, m, d, hh, mm, ss)] of Python's [datetime] module, as a
    timestamp. *)
Definition datetime (y m d hh mm ss : Z) : Z :=
  (days_from_civil y m d * 86400 + hh * 3600 + mm * 60 + ss) * us_per_second.

(** [.dt.date()] of Polars and the cast TIMESTAMP -> DATE of DuckDB. *)
Definition date_of (ts : Z) : Z := ts / us_per_day.

Definition digit (c : ascii) : option Z :=
  let n := Z.of_nat (nat_of_ascii c) in
  if (48 <=? n) && (n <=? 57) then Some (n - 48) else None.

Definition two_digits (a b : ascii) : option Z :=
  x ← digit a; y ← digit b; Some (10 * x + y).

Definition four_digits (a b c d : ascii) : option Z :=
  x ← two_digits a b; y ← two_digits c d; Some (100 * x + y).

Definition is_char (c : ascii) (s : string) : bool :=
  bool_decide (String c EmptyString = s).

(** Parsing of one timestamp string. The grammar accepted here is the ISO
    form [YYYY-MM-DDTHH:MM:SS] (a blank may replace the [T]) with fields in
    range; Polars accepts further spellings, which the pipeline's claims do
    not depend on. [None] is a string that fails coercion. *)
Definition parse_datetime (s : string) : option Z :=
  match list_ascii_of_string s with
  | [y1; y2; y3; y4; c1; m1; m2; c2; d1; d2; sep; h1; h2; c3; n1; n2; c4; s1; s2] =>
      y ← four_digits y1 y2 y3 y4;
      m ← two_digits m1 m2;
      d ← two_digits d1 d2;
      hh ← two_digits h1 h2;
      mm ← two_digits n1 n2;
      ss ← two_digits s1 s2;
      if is_char c1 "-" && is_char c2 "-" && (is_char sep "T" || is_char sep " ")
         && is_char c3 ":" && is_char c4 ":"
         && (1 <=? m) && (m <=? 12) && (1 <=? d) && (d <=? days_in_month y m)
         && (hh <? 24) && (mm <? 60) && (ss <? 60)
      then Some (datetime y m d hh mm ss)
      else None
  | _ => None
  end.

End Calendar.

(** ** Polars: frames, lazy plans and the expressions the pipeline uses *)
Module Polars.

(** A row of the scanned source: five columns, every cell nullable, the
    [timestamp] column still a string column. *)
Record SourceRow : Type := {
  src_id : option string;
  src_event_type : option string;
  src_value : option float;
  src_timestamp : option string;
  src_metadata : option string
}.

(** A row after the column operations of [transform]: the raw event row,
    with [timestamp] a datetime column. *)
Record EventRow : Type := {
  id : option string;
  event_type : option string;
  value : option float;
  timestamp : option Z;
  metadata : option string
}.

(** A row of the aggregate frame built by [load]. *)
Record SummaryRow : Type := {
  date : option Z;
  summary_event_type : option string;
  total_value : float;
  event_count : Z
}.

(** A [LazyFrame]: the recorded plan, evaluated only by [collect]. A column
    expression list is a fallible function on rows, a filter mask a
    three-valued predicate (a null mask entry drops the row). *)
Inductive LazyFrame : Type -> Type :=
| scan_csv (source : string) : LazyFrame SourceRow
| scan_parquet (source : string) : LazyFrame SourceRow
| with_columns {A B : Type} (exprs : A -> result B) (lf : LazyFrame A) : LazyFrame B
| filter {A : Type} (mask : A -> option bool) (lf : LazyFrame A) : LazyFrame A.

Definition keep {A} (mask : A -> option bool) (r : A) : bool :=
  match mask r with Some true => true | _ => false end.

(** Evaluation of a plan against the readable sources. *)
Fixpoint evaluate {A} (lf : LazyFrame A) (sources : gmap string (list SourceRow))
  : result (list A) :=
  match lf in LazyFrame T return result (list T) with
  | scan_csv source | scan_parquet source =>
      match sources !! source with
      | Some rows => Ok rows
      | None => Raise FileNotFoundError
      end
  | with_columns exprs lf' =>
      match evaluate lf' sources with
      | Ok rows => traverse exprs rows
      | Raise e => Raise e
      end
  | filter mask lf' =>
      match evaluate lf' sources with
      | Ok rows => Ok (List.filter (keep mask) rows)
      | Raise e => Raise e
      end
  end.

(** [.str.to_datetime()] with its defaults ([strict=True]): a null cell stays
    null, a string that does not parse raises. *)
Definition str_to_datetime (cell : option string) : result (option Z) :=
  match cell with
  | None => Ok None
  | Some s =>
      match Calendar.parse_datetime s with
      | Some ts => Ok (Some ts)
      | None => Raise InvalidOperationError
      end
  end.

(** [.fill_null(x)] *)
Definition fill_null {A} (cell : option A) (x : A) : option A :=
  match cell with
  | Some v => Some v
  | None => Some x
  end.

Definition is_nan (x : float) : bool := negb (PrimFloat.eqb x x).

(** Polars compares floats in a total order: NaN equals NaN and is greater
    than every other value. *)
Definition float_gt (a b : float) : bool :=
  if is_nan a then negb (is_nan b) else PrimFloat.ltb b a.

(** [pl.col(c) > x] on a Float64 column: null for a null cell. *)
Definition gt (cell : option float) (x : float) : option bool :=
  match cell with
  | Some v => Some (float_gt v x)
  | None => None
  end.

(** [pl.col(c) >= t] on a Datetime column: null for a null cell. *)
Definition ge (cell : option Z) (t : Z) : option bool :=
  match cell with
  | Some v => Some (t <=? v)
  | None => None
  end.

(** [.sum()] of a Float64 column: nulls are skipped, the empty sum is 0.
    Polars does not fix the order of the floating-point additions; here the
    cells are added in row order. *)
Definition sum (col : list (option float)) : float :=
  fold_left (fun acc cell =>
               match cell with
               | Some v => PrimFloat.add acc v
               | None => acc
               end) col 0%float.

(** [.count()]: the number of non-null cells. *)
Definition count {A} (col : list (option A)) : Z :=
  Z.of_nat (length (List.filter (fun cell : option A => bool_decide (is_Some cell)) col)).

(** [len(df)] and [.height] *)
Definition len {A} (df : list A) : Z := Z.of_nat (length df).

(** The group key of [load]: ([timestamp].dt.date(), [event_type]). *)
Definition group_key (r : EventRow) : option Z * option string :=
  (Calendar.date_of <$> timestamp r, event_type r).

Definition group (df : list EventRow) (k : option Z * option string) : list EventRow :=
  List.filter (fun r => bool_decide (group_key r = k)) df.

(** [df.group_by(date, "event_type").agg([sum(value), count(id)])]: one row
    per distinct key. Polars does not fix the order of the groups; here it is
    the order [remove_dups] leaves. *)
Definition group_by_agg (df : list EventRow) : list SummaryRow :=
  map (fun k =>
         {| date := fst k;
            summary_event_type := snd k;
            total_value := sum (map value (group df k));
            event_count := count (map id (group df k)) |})
      (remove_dups (map group_key df)).


(** Ascending order on a nullable date column, nulls first. *)
Definition date_le (a b : option Z) : Prop :=
  match a, b with
  | None, _ => True
  | Some _, None => False
  | Some x, Some y => x <= y
  end.

#[global] Instance date_le_dec : RelDecision date_le.
Proof. intros [x|] [y|]; simpl; apply _. Defined.

Definition by_date (a b : SummaryRow) : Prop := date_le (date a) (date b).

#[global] Instance by_date_dec : RelDecision by_date.
Proof. intros a b. unfold by_date. apply _. Defined.

(** [.sort("date")] *)
Definition sort_by_date (rows : list SummaryRow) : list SummaryRow :=
  merge_sort by_date rows.

End Polars.

(** ** DuckDB: the embedded store

    A database is a catalog of tables; a table has declared columns and rows
    of cells. The statements the pipeline issues are modelled as functions on
    the catalog. *)
Module DuckDB.

Inductive sql_type : Type := VARCHAR | DOUBLE | TIMESTAMP | DATE | BIGINT.

Inductive cell : Type :=
| Null
| Varchar (s : string)
| Double (x : float)
| Timestamp (us : Z)
| Date (days : Z)
| BigInt (n : Z).

Record column : Type := { col_name : string; col_type : sql_type }.

(** A stored table, and also a relation handed to a statement (a Polars frame
    named in [FROM]) or returned by a query. *)
Record table : Type := { columns : list column; rows : list (list cell) }.

Definition varchar (c : option string) : cell :=
  match c with Some s => Varchar s | None => Null end.
Definition double (c : option float) : cell :=
  match c with Some x => Double x | None => Null end.
Definition timestamp_cell (c : option Z) : cell :=
  match c with Some t => Timestamp t | None => Null end.
Definition date_cell (c : option Z) : cell :=
  match c with Some d => Date d | None => Null end.

(** The frame [df] of [load] as a relation: its five columns in order. *)
Definition events_relation (df : list Polars.EventRow) : table :=
  {| columns := [ {| col_name := "id"; col_type := VARCHAR |};
                  {| col_name := "event_type"; col_type := VARCHAR |};
                  {| col_name := "value"; col_type := DOUBLE |};
                  {| col_name := "timestamp"; col_type := TIMESTAMP |};
                  {| col_name := "metadata"; col_type := VARCHAR |} ];
     rows := map (fun r => [ varchar (Polars.id r);
                             varchar (Polars.event_type r);
                             double (Polars.value r);
                             timestamp_cell (Polars.timestamp r);
                             varchar (Polars.metadata r) ]) df |}.

(** The frame [summary] of [load] as a relation: its four columns in order. *)
Definition summary_relation (summary : list Polars.SummaryRow) : table :=
  {| columns := [ {| col_name := "date"; col_type := DATE |};
                  {| col_name := "event_type"; col_type := VARCHAR |};
                  {| col_name := "total_value"; col_type := DOUBLE |};
                  {| col_name := "event_count"; col_type := BIGINT |} ];
     rows := map (fun r => [ date_cell (Polars.date r);
                             varchar (Polars.summary_event_type r);
                             Double (Polars.total_value r);
                             BigInt (Polars.event_count r) ]) summary |}.

(** [CREATE TABLE IF NOT EXISTS name (cols)]: an existing table of that name
    is left as it is, whatever its columns. *)
Definition create_table_if_not_exists (name : string) (cols : list column)
    (catalog : gmap string table) : gmap string table :=
  match catalog !! name with
  | Some _ => catalog
  | None => <[name := {| columns := cols; rows := [] |}]> catalog
  end.

(** [INSERT INTO name SELECT * FROM rel]: an insert without a column list is
    by position and binds only when the relation supplies exactly as many
    columns as the table declares (DuckDB's binder otherwise refuses with
    "table ... has N columns but M values were supplied"; a column's DEFAULT
    is used only for a column left out of an explicit column list). *)
Definition insert_select_star (name : string) (rel : table)
    (catalog : gmap string table) : result (gmap string table) :=
  match catalog !! name with
  | None => Raise CatalogException
  | Some t =>
      if decide (length (columns rel) = length (columns t))
      then Ok (<[name := {| columns := columns t; rows := rows t ++ rows rel |}]> catalog)
      else Raise BinderException
  end.

Fixpoint column_index (name : string) (cols : list column) : option nat :=
  match cols with
  | [] => None
  | c :: cols' =>
      if decide (col_name c = name) then Some 0%nat
      else S <$> column_index name cols'
  end.

Definition cell_at (i : nat) (row : list cell) : cell := nth i row Null.

(** Resolution of the names of a select list against a table. *)
Definition bind_columns (names : list string) (t : table) : result (list nat) :=
  traverse (fun name =>
              match column_index name (columns t) with
              | Some i => Ok i
              | None => Raise BinderException
              end) names.

Definition float_lt (a b : float) : bool :=
  if Polars.is_nan b then negb (Polars.is_nan a) else PrimFloat.ltb a b.

(** Order of two non-null cells of one column type. *)
Definition cell_lt (a b : cell) : bool :=
  match a, b with
  | Timestamp x, Timestamp y => x <? y
  | Date x, Date y => x <? y
  | BigInt x, BigInt y => x <? y
  | Double x, Double y => float_lt x y
  | Varchar x, Varchar y => String.ltb x y
  | _, _ => false
  end.

(** The aggregate [MAX]: nulls are skipped; over no value it is NULL. *)
Definition sql_max (col : list cell) : cell :=
  fold_left (fun acc c =>
               match c, acc with
               | Null, _ => acc
               | _, Null => c
               | _, _ => if cell_lt acc c then c else acc
               end) col Null.

(** [SELECT MAX(col) FROM name] *)
Definition select_max (col name : string) (catalog : gmap string table) : result cell :=
  match catalog !! name with
  | None => Raise CatalogException
  | Some t =>
      match column_index col (columns t) with
      | None => Raise BinderException
      | Some i => Ok (sql_max (map (cell_at i) (rows t)))
      end
  end.

(** [date >= CURRENT_DATE - INTERVAL 'days days'] on one cell of a DATE
    column; a NULL compares to NULL and the row is not selected. *)
Definition date_since (today days : Z) (c : cell) : bool :=
  match c with
  | Date d => today - days <=? d
  | _ => false
  end.

Definition date_desc (i : nat) (r1 r2 : list cell) : Prop :=
  cell_lt (cell_at i r1) (cell_at i r2) = false.

#[global] Instance date_desc_dec i : RelDecision (date_desc i).
Proof. intros r1 r2. unfold date_desc. apply _. Defined.

(** The query of [get_summary]:
    [SELECT date, event_type, total_value, event_count FROM daily_summary
     WHERE date >= CURRENT_DATE - INTERVAL 'days days' ORDER BY date DESC]. *)
Definition select_summary (today days : Z) (catalog : gmap string table) : result table :=
  match catalog !! "daily_summary" with
  | None => Raise CatalogException
  | Some t =>
      match bind_columns ["date"; "event_type"; "total_value"; "event_count"] t with
      | Raise e => Raise e
      | Ok idx =>
          let i_date := nth 0 idx 0%nat in
          let selected :=
            List.filter (fun r => date_since today days (cell_at i_date r)) (rows t) in
          let ordered := merge_sort (date_desc i_date) selected in
          Ok {| columns := [ {| col_name := "date"; col_type := DATE |};
                             {| col_name := "event_type"; col_type := VARCHAR |};
                             {| col_name := "total_value"; col_type := DOUBLE |};
                             {| col_name := "event_count"; col_type := BIGINT |} ];
                rows := map (fun r => map (fun i => cell_at i r) idx) ordered |}
      end
  end.

(** Truth value of the Python object a fetched cell becomes: [None], the
    empty string and zero are false, a [datetime] or [date] always true. *)
Definition truthy (c : cell) : bool :=
  match c with
  | Null => false
  | Varchar s => negb (bool_decide (s = ""))
  | Double x => negb (PrimFloat.eqb x 0%float)
  | BigInt n => negb (n =? 0)
  | Timestamp _ | Date _ => true
  end.

End DuckDB.

(** ** The world the pipeline runs in *)

(** A decoded JSON value; an object is a Python [dict]. *)
Inductive json : Type :=
| JNull
| JBool (b : bool)
| JNumber (n : Z)
| JString (s : string)
| JArray (items : list json)
| JObject (members : gmap string json).

(** The text of a file as [json.load] sees it: not JSON, or the value it
    decodes to. *)
Inductive document : Type :=
| NotJSON
| JSONText (value : json).

(** The dictionary a successful [load] returns. *)
Module LoadResult.
Record t : Type := {
  events_loaded : Z;
  summary_rows : Z;
  timestamp : Z   (* [datetime.now()], as a timestamp; the ISO text is not modelled *)
}.
End LoadResult.

Inductive log_record : Type :=
| Starting (source_path : string)
| SourceRows (height : Z)
| Completed (load_result : LoadResult.t)
| Failed (e : exn).

(** What an execution does besides changing the stores, in order. *)
Inductive event : Type :=
| Connect (handle : nat) (database : string)
| Close (handle : nat)
| Collect
| LogInfo (record : log_record)
| LogError (record : log_record).

Record World : Type := {
  files : gmap string document;                    (* JSON documents by path *)
  sources : gmap string (list Polars.SourceRow);   (* tabular sources by path or locator *)
  databases : gmap string (gmap string DuckDB.table); (* database files by path *)
  connections : gmap nat string;                   (* open connections: handle to database path *)
  next_handle : nat;                               (* handles are never reused *)
  clock : Z;                                       (* the current time, a timestamp *)
  trace : list event
}.

Definition set_databases (dbs : gmap string (gmap string DuckDB.table)) (w : World) : World :=
  {| files := files w; sources := sources w; databases := dbs;
     connections := connections w; next_handle := next_handle w;
     clock := clock w; trace := trace w |}.

Definition set_connections (cs : gmap nat string) (w : World) : World :=
  {| files := files w; sources := sources w; databases := databases w;
     connections := cs; next_handle := next_handle w;
     clock := clock w; trace := trace w |}.

Definition set_next_handle (n : nat) (w : World) : World :=
  {| files := files w; sources := sources w; databases := databases w;
     connections := connections w; next_handle := n;
     clock := clock w; trace := trace w |}.

Definition emit (e : event) (w : World) : World :=
  {| files := files w; sources := sources w; databases := databases w;
     connections := connections w; next_handle := next_handle w;
     clock := clock w; trace := trace w ++ [e] |}.

(** Computations of the pipeline: they read and change the world and return
    a value or raise; the world reached is kept in both cases. *)
Definition M (A : Type) : Type := World -> result A * World.

#[global] Instance M_ret : MRet M := fun _ a w => (Ok a, w).
#[global] Instance M_bind : MBind M := fun _ _ f m w =>
  match m w with
  | (Ok a, w') => f a w'
  | (Raise e, w') => (Raise e, w')
  end.

Definition raise {A} (e : exn) : M A := fun w => (Raise e, w).

Definition lift {A} (r : result A) : M A := fun w => (r, w).

(** [try: body except Exception as e: handler(e)] *)
Definition try_except {A} (body : M A) (handler : exn -> M A) : M A := fun w =>
  match body w with
  | (Ok a, w') => (Ok a, w')
  | (Raise e, w') => handler e w'
  end.

Definition tell (e : event) : M unit := fun w => (Ok tt, emit e w).

(** [logger.info] and [logger.error] *)
Definition logger_info (r : log_record) : M unit := tell (LogInfo r).
Definition logger_error (r : log_record) : M unit := tell (LogError r).

(** [datetime.now()] *)
Definition datetime_now : M Z := fun w => (Ok (clock w), w).

(** [with open(path) as f: json.load(f)] *)
Definition json_load (path : string) : M json := fun w =>
  match files w !! path with
  | None => (Raise FileNotFoundError, w)
  | Some NotJSON => (Raise JSONDecodeError, w)
  | Some (JSONText value) => (Ok value, w)
  end.

(** [obj[key]] on a decoded JSON value, [key] a string: only a dict can be
    subscripted by a string. *)
Definition getitem (obj : json) (key : string) : result json :=
  match obj with
  | JObject members =>
      match members !! key with
      | Some v => Ok v
      | None => Raise (KeyError key)
      end
  | _ => Raise TypeError
  end.

(** [duckdb.connect(database)]: opens the database file at the path, created
    empty when absent, and returns a new connection. *)
Definition duckdb_connect (database : json) : M nat :=
  match database with
  | JString path => fun w =>
      let h := next_handle w in
      let dbs := match databases w !! path with
                 | Some _ => databases w
                 | None => <[path := ∅]> (databases w)
                 end in
      (Ok h, emit (Connect h path)
               (set_next_handle (S h)
                  (set_connections (<[h := path]> (connections w))
                     (set_databases dbs w))))
  | _ => raise TypeError
  end.

(** [con.close()]: releases an open connection; on a closed one it does
    nothing. *)
Definition duckdb_close (con : nat) : M unit := fun w =>
  match connections w !! con with
  | Some _ => (Ok tt, emit (Close con) (set_connections (delete con (connections w)) w))
  | None => (Ok tt, w)
  end.

(** [con.sql(statement)] for a statement that changes the catalog. *)
Definition sql_execute (con : nat)
    (statement : gmap string DuckDB.table -> result (gmap string DuckDB.table)) : M unit :=
  fun w =>
    match connections w !! con with
    | None => (Raise ConnectionException, w)
    | Some path =>
        match statement (default ∅ (databases w !! path)) with
        | Ok catalog => (Ok tt, set_databases (<[path := catalog]> (databases w)) w)
        | Raise e => (Raise e, w)
        end
    end.

(** [con.sql(query)] followed by fetching the result; [CURRENT_DATE] is the
    date of the clock. *)
Definition sql_query {A} (con : nat)
    (query : Z -> gmap string DuckDB.table -> result A) : M A :=
  fun w =>
    match connections w !! con with
    | None => (Raise ConnectionException, w)
    | Some path =>
        (query (Calendar.date_of (clock w)) (default ∅ (databases w !! path)), w)
    end.

(** [lf.collect()]: the one operation that materializes a lazy frame. *)
Definition collect {A} (lf : Polars.LazyFrame A) : M (list A) := fun w =>
  (Polars.evaluate lf (sources w), emit Collect w).

(** ** class DataPipeline *)
Module Pipeline.
Import Polars.

(** [s.startswith(prefix)] and [s.endswith(suffix)] *)
Definition startswith (s prefix : string) : bool := String.prefix prefix s.

Definition endswith (s suffix : string) : bool :=
  let n := String.length s in
  let m := String.length suffix in
  if (m <=? n)%nat then String.eqb (String.substring (n - m) m s) suffix else false.

(** The columns of the two tables, as [_init_duckdb_tables] declares them
    ([processed_at] with [DEFAULT NOW()]). *)
Definition raw_events_columns : list DuckDB.column :=
  [ {| DuckDB.col_name := "id"; DuckDB.col_type := DuckDB.VARCHAR |};
    {| DuckDB.col_name := "event_type"; DuckDB.col_type := DuckDB.VARCHAR |};
    {| DuckDB.col_name := "value"; DuckDB.col_type := DuckDB.DOUBLE |};
    {| DuckDB.col_name := "timestamp"; DuckDB.col_type := DuckDB.TIMESTAMP |};
    {| DuckDB.col_name := "metadata"; DuckDB.col_type := DuckDB.VARCHAR |} ].

Definition daily_summary_columns : list DuckDB.column :=
  [ {| DuckDB.col_name := "date"; DuckDB.col_type := DuckDB.DATE |};
    {| DuckDB.col_name := "event_type"; DuckDB.col_type := DuckDB.VARCHAR |};
    {| DuckDB.col_name := "total_value"; DuckDB.col_type := DuckDB.DOUBLE |};
    {| DuckDB.col_name := "event_count"; DuckDB.col_type := DuckDB.BIGINT |};
    {| DuckDB.col_name := "processed_at"; DuckDB.col_type := DuckDB.TIMESTAMP |} ].

(** The object: its two attributes. *)
Record DataPipeline : Type := {
  config : json;
  duckdb : nat
}.

Definition _init_duckdb_tables (self : DataPipeline) : M unit :=
  sql_execute (duckdb self)
    (fun catalog =>
       Ok (DuckDB.create_table_if_not_exists "raw_events" raw_events_columns catalog));;
  sql_execute (duckdb self)
    (fun catalog =>
       Ok (DuckDB.create_table_if_not_exists "daily_summary" daily_summary_columns catalog)).

Definition __init__ (config_path : string) : M DataPipeline :=
  config ← json_load config_path;
  database ← lift (getitem config "duckdb_path");
  con ← duckdb_connect database;
  let self := {| config := config; duckdb := con |} in
  _init_duckdb_tables self;;
  mret self.

Definition __enter__ (self : DataPipeline) : DataPipeline := self.

Definition __exit__ (self : DataPipeline) : M unit :=
  duckdb_close (duckdb self).

Definition extract (self : DataPipeline) (source : string) : LazyFrame SourceRow :=
  if endswith source ".csv" then scan_csv source
  else if startswith source "s3://" then scan_parquet source
  else scan_parquet source.

(** [datetime(2024, 1, 1)] *)
Definition lower_bound : Z := Calendar.datetime 2024 1 1 0 0 0.

(** The column expressions of [with_columns]: [timestamp] coerced,
    [value] filled, the other columns as they are. *)
Definition coerce_and_fill (r : SourceRow) : result EventRow :=
  ts ← str_to_datetime (src_timestamp r);
  Ok {| id := src_id r;
        event_type := src_event_type r;
        value := fill_null (src_value r) 0%float;
        timestamp := ts;
        metadata := src_metadata r |}.

(** [pl.col("value") > 0] *)
Definition positive_mask (r : EventRow) : option bool := gt (value r) 0%float.

(** [pl.col("timestamp") >= datetime(2024, 1, 1)] *)
Definition recent_mask (r : EventRow) : option bool := ge (timestamp r) lower_bound.

Definition transform (self : DataPipeline) (df : LazyFrame SourceRow) : LazyFrame EventRow :=
  filter recent_mask
    (filter positive_mask
       (with_columns coerce_and_fill df)).

Definition load (self : DataPipeline) (df : list EventRow) : M LoadResult.t :=
  sql_execute (duckdb self)
    (DuckDB.insert_select_star "raw_events" (DuckDB.events_relation df));;
  let summary := sort_by_date (group_by_agg df) in
  sql_execute (duckdb self)
    (DuckDB.insert_select_star "daily_summary" (DuckDB.summary_relation summary));;
  now ← datetime_now;
  mret {| LoadResult.events_loaded := len df;
          LoadResult.summary_rows := len summary;
          LoadResult.timestamp := now |}.

Definition run (self : DataPipeline) (source_path : string) : M LoadResult.t :=
  logger_info (Starting source_path);;
  try_except
    (let raw := extract self source_path in
     raw_df ← collect raw;
     logger_info (SourceRows (len raw_df));;
     let transformed := transform self raw in
     result_df ← collect transformed;
     load_result ← load self result_df;
     logger_info (Completed load_result);;
     mret load_result)
    (fun e => logger_error (Failed e);; raise e).

Definition get_summary (self : DataPipeline) (days : Z) : M DuckDB.table :=
  sql_query (duckdb self) (fun today catalog => DuckDB.select_summary today days catalog).

(** The statement names the table by interpolating [table_name]; the model
    covers a [table_name] that is a plain table name. [None] is [Null]. *)
Definition get_watermark (self : DataPipeline) (table_name : string) : M DuckDB.cell :=
  result ← sql_query (duckdb self)
             (fun _ catalog => DuckDB.select_max "timestamp" table_name catalog);
  mret (if DuckDB.truthy result then result else DuckDB.Null).

(** *** The [with] statement

    [with DataPipeline(config_path) as pipeline: body]. The constructor runs
    before the block is entered; [__exit__] runs however the body ends, and
    its return value ([None]) lets an exception of the body propagate. *)
Definition with_pipeline {A} (config_path : string) (body : DataPipeline -> M A) : M A :=
  fun w =>
    match __init__ config_path w with
    | (Raise e, w1) => (Raise e, w1)
    | (Ok self, w1) =>
        match body (__enter__ self) w1 with
        | (r, w2) =>
            match __exit__ self w2 with
            | (Ok _, w3) => (r, w3)
            | (Raise e, w3) => (Raise e, w3)
            end
        end
    end.

(** What caller code does with the pipeline inside the block: the public
    methods, an explicit shutdown ([pipeline.__exit__(None, None, None)]) and
    raising an exception of its own. *)
Inductive call : Type :=
| CallRun (source_path : string)
| CallGetSummary (days : Z)
| CallGetWatermark (table_name : string)
| CallShutdown
| CallRaise.

Definition perform (self : DataPipeline) (c : call) : M unit :=
  match c with
  | CallRun source_path => run self source_path;; mret tt
  | CallGetSummary days => get_summary self days;; mret tt
  | CallGetWatermark table_name => get_watermark self table_name;; mret tt
  | CallShutdown => __exit__ self
  | CallRaise => raise UserException
  end.

Fixpoint block (self : DataPipeline) (calls : list call) : M unit :=
  match calls with
  | [] => mret tt
  | c :: calls' => perform self c;; block self calls'
  end.

End Pipeline.

(** ** scripts/build_skills.py *)
Module BuildSkills.

(** One [SKILL.md] found by [root.rglob]: [path] is [str(p)], [parent] is
    [p.parent], and [name] is [fm.get('name')] when the text opens with a
    front-matter header that gives a string name ([None] when the header or
    the name is missing). Reading the text, the header's regular expression
    and the YAML decoding are not modelled. *)
Record manifest : Type := {
  path : string;
  parent : string;
  name : option string
}.

(** [x in s] on strings *)
Fixpoint contains (x s : string) : bool :=
  String.prefix x s ||
  match s with
  | EmptyString => false
  | String _ s' => contains x s'
  end.

Definition excluded (s : string) : bool :=
  existsb (fun x => contains x s) ["/skills/"; "/.git/"; "/.ruff_cache/"].

(** The first loop: the list [sources], in the order of the scan. *)
Fixpoint find_sources (found : list manifest) : list (string * string) :=
  match found with
  | [] => []
  | p :: found' =>
      if excluded (path p) then find_sources found'
      else
        match name p with
        | None => find_sources found'
        | Some n =>
            if bool_decide (n = "") then find_sources found'
            else (n, parent p) :: find_sources found'
        end
  end.

(** [seen.setdefault(name, dirp)] *)
Definition setdefault (seen : gmap string string) (name dirp : string) : gmap string string :=
  match seen !! name with
  | Some _ => seen
  | None => <[name := dirp]> seen
  end.

(** The second loop: the dictionary [seen]. *)
Definition deduplicate (sources : list (string * string)) : gmap string string :=
  fold_left (fun seen item => setdefault seen (fst item) (snd item)) sources ∅.

Definition name_le (a b : string) : Prop := String.leb a b = true.

#[global] Instance name_le_dec : RelDecision name_le.
Proof. intros a b. unfold name_le. apply _. Defined.

(** Order of the items of a dictionary: by key (the keys are distinct). *)
Definition item_le (a b : string * string) : Prop := name_le (fst a) (fst b).

#[global] Instance item_le_dec : RelDecision item_le.
Proof. intros a b. unfold item_le. apply _. Defined.

(** [sorted(seen.items())] and [sorted(seen)] *)
Definition sorted_items (seen : gmap string string) : list (string * string) :=
  merge_sort item_le (map_to_list seen).

Definition sorted_names (seen : gmap string string) : list string :=
  merge_sort name_le (map fst (map_to_list seen)).

Definition nl : string := String (ascii_of_nat 10) EmptyString.

(** The line of the index for one name. *)
Definition entry (name : string) : string := "- `" ++ name ++ "`" ++ nl.

(** The list [lines] joined into README.md. *)
Definition readme_lines (seen : gmap string string) : list string :=
  [ "# Generated Skills Directory" ++ nl ++ nl;
    "This directory is auto-generated from source. Do not edit manually." ++ nl ++ nl;
    "## " ++ pretty (size seen) ++ " Skills" ++ nl ++ nl ]
  ++ map entry (sorted_names seen).

(** What a build leaves: the directories copied, as (name under [skills/],
    source directory) in the order of the copy loop, and the text of
    [skills/README.md]. Which children of a source directory the copy takes
    (files, directories without a nested manifest, the shared references) is
    not modelled. *)
Record build : Type := {
  copied : list (string * string);
  readme : string
}.

Definition build_skills (found : list manifest) : build :=
  let sources := find_sources found in
  let seen := deduplicate sources in
  {| copied := sorted_items seen;
     readme := String.concat "" (readme_lines seen) |}.

End BuildSkills.

(** ** scripts/build_skills.py: the copy of one skill directory *)
Module SkillTree.










End SkillTree.

(** ** Notions the properties are stated with *)
Module Notions.
Import Polars Pipeline.

(** The catalog [_init_duckdb_tables] leaves in the connected database. *)
Definition initialized (catalog : gmap string DuckDB.table) : gmap string DuckDB.table :=
  DuckDB.create_table_if_not_exists "daily_summary" daily_summary_columns
    (DuckDB.create_table_if_not_exists "raw_events" raw_events_columns catalog).

(** The world right after [duckdb.connect(path)], and after the whole
    constructor. *)
Definition connected (path : string) (w : World) : World :=
  snd (duckdb_connect (JString path) w).

Definition constructed (path : string) (w : World) : World :=
  let w1 := connected path w in
  set_databases
    (<[path := initialized (default ∅ (databases w1 !! path))]> (databases w1)) w1.

Definition is_lifecycle (e : event) : bool :=
  match e with
  | Connect _ _ | Close _ => true
  | _ => false
  end.

Definition is_collect (e : event) : bool :=
  match e with
  | Collect => true
  | _ => false
  end.

(** The connection events of a trace, and its number of materializations. *)
Definition lifecycle (t : list event) : list event := List.filter is_lifecycle t.
Definition materializations (t : list event) : nat := length (List.filter is_collect t).

(** A computation that emits no event of the class [P]. *)
Definition emits_no (P : event -> bool) {A} (m : M A) : Prop :=
  forall w, List.filter P (trace (snd (m w))) = List.filter P (trace w).

(** A computation that opens and closes no connection. *)
Definition keeps_connections {A} (m : M A) : Prop :=
  forall w, connections (snd (m w)) = connections w.

(** The two states of a pipeline's connection inside the [with] block,
    relative to the connections open when the block is entered (this
    pipeline's included) and the connection events up to then. *)
Definition live (open_before : gmap nat string) (events_before : list event)
    (w : World) : Prop :=
  connections w = open_before /\ lifecycle (trace w) = events_before.

Definition released (self : DataPipeline) (open_before : gmap nat string)
    (events_before : list event) (w : World) : Prop :=
  connections w = delete (duckdb self) open_before /\
  lifecycle (trace w) = (events_before ++ [Close (duckdb self)])%list.

(** The largest non-null cell of a timestamp column, if there is one. *)
Definition max_timestamp (col : list (option Z)) : option Z :=
  fold_left (fun acc c =>
               match c, acc with
               | None, _ => acc
               | Some x, None => Some x
               | Some x, Some a => Some (Z.max a x)
               end) col None.


End Notions.
Export Notions.

(** ** Concrete inputs used by the examples below *)
Module Scenario.
Import Polars Pipeline.

(** The row of the end-to-end scenario. *)
Definition row_a : SourceRow :=
  {| src_id := Some "a"; src_event_type := Some "click"; src_value := Some 5%float;
     src_timestamp := Some "2024-03-01T00:00:00"; src_metadata := Some "{}" |}.

(** Rows with a null [value], after and before the lower bound. *)
Definition row_null_late : SourceRow :=
  {| src_id := Some "b"; src_event_type := Some "click"; src_value := None;
     src_timestamp := Some "2024-03-02T08:30:00"; src_metadata := None |}.

Definition row_null_early : SourceRow :=
  {| src_id := Some "c"; src_event_type := Some "view"; src_value := None;
     src_timestamp := Some "2023-12-31T23:59:59"; src_metadata := None |}.

(** A row whose timestamp is not a datetime. *)
Definition row_bad : SourceRow :=
  {| src_id := Some "d"; src_event_type := Some "click"; src_value := Some 1%float;
     src_timestamp := Some "not-a-date"; src_metadata := None |}.

Definition config_json : json :=
  JObject {[ "duckdb_path" := JString "analytics.db";
             "raw_path" := JString "data/raw";
             "processed_path" := JString "data/processed" ]}.

(** A machine with a configuration file and three sources, no database yet,
    on 2024-03-15 at noon. *)
Definition world0 : World :=
  {| files := {[ "config.json" := JSONText config_json; "broken.json" := NotJSON ]};
     sources := {[ "data/input.parquet" := [row_a];
                   "data/nulls.csv" := [row_null_late; row_a; row_null_early];
                   "data/bad.csv" := [row_a; row_bad] ]};
     databases := ∅;
     connections := ∅;
     next_handle := 0;
     clock := Calendar.datetime 2024 3 15 12 0 0;
     trace := [] |}.

(** A pipeline object whose connection is handle 0, and the world right
    after its construction from "config.json". *)
Definition pipeline0 : DataPipeline := {| config := config_json; duckdb := 0 |}.

Definition world1 : World := snd (__init__ "config.json" world0).

(** Three events, not in the order of their timestamps. *)
Definition event_at (name : string) (ts : Z) : EventRow :=
  {| id := Some name; event_type := Some "click"; value := Some 1%float;
     timestamp := Some ts; metadata := None |}.

Definition three_events : list EventRow :=
  [ event_at "e2" (Calendar.datetime 2024 3 2 0 0 0);
    event_at "e3" (Calendar.datetime 2024 3 3 0 0 0);
    event_at "e1" (Calendar.datetime 2024 3 1 0 0 0) ].

(** The transformed frame of the end-to-end scenario: the row "a". *)
Definition frame_a : list EventRow :=
  [ {| id := Some "a"; event_type := Some "click"; value := Some 5%float;
       timestamp := Some (Calendar.datetime 2024 3 1 0 0 0); metadata := Some "{}" |} ].

(** A world in which the summary table already holds the aggregate row of
    the scenario ({2024-03-01, click, 5.0, 1}), seen on 2024-05-01. *)
Definition stored_summary : DuckDB.table :=
  {| DuckDB.columns := daily_summary_columns;
     DuckDB.rows := [ [ DuckDB.Date (Calendar.days_from_civil 2024 3 1);
                        DuckDB.Varchar "click"; DuckDB.Double 5%float; DuckDB.BigInt 1;
                        DuckDB.Timestamp (Calendar.datetime 2024 3 1 9 0 0) ] ] |}.

Definition world_later : World :=
  {| files := files world1;
     sources := sources world1;
     databases := {[ "analytics.db" := <["daily_summary" := stored_summary]> (initialized ∅) ]};
     connections := connections world1;
     next_handle := next_handle world1;
     clock := Calendar.datetime 2024 5 1 12 0 0;
     trace := trace world1 |}.

(** A body of the [with] block that runs the pipeline, survives a failure of
    the run, and then asks for the summary of the last 30 days. *)
Definition run_then_summary (pipeline : DataPipeline) : M DuckDB.table :=
  try_except (run pipeline "data/input.parquet";; mret tt) (fun _ => mret tt);;
  get_summary pipeline 30.

End Scenario.

(** * Properties *)

(** ** Results and traversals *)

Lemma traverse_Ok_forward {A B} (f : A -> result B) (l : list A) (ys : list B) :
  traverse f l = Ok ys ->
  forall x, In x l -> exists y, f x = Ok y /\ In y ys.
Proof.
  revert ys. induction l as [|a l IH]; intros ys H x Hx; [destruct Hx|].
  simpl in H. destruct (f a) as [b|e] eqn:Ea; [|discriminate].
  destruct (traverse f l) as [bs|e] eqn:El; [|discriminate].
  injection H as <-. destruct Hx as [->|Hx].
  - exists b. split; [assumption | now left].
  - destruct (IH bs eq_refl x Hx) as (y & Hy & Hin).
    exists y. split; [assumption | now right].
Qed.

Lemma traverse_Ok_backward {A B} (f : A -> result B) (l : list A) (ys : list B) :
  traverse f l = Ok ys ->
  forall y, In y ys -> exists x, In x l /\ f x = Ok y.
Proof.
  revert ys. induction l as [|a l IH]; intros ys H y Hy.
  - injection H as <-. destruct Hy.
  - simpl in H. destruct (f a) as [b|e] eqn:Ea; [|discriminate].
    destruct (traverse f l) as [bs|e] eqn:El; [|discriminate].
    injection H as <-. destruct Hy as [<-|Hy].
    + exists a. split; [now left | assumption].
    + destruct (IH bs eq_refl y Hy) as (x & Hx & Hfx).
      exists x. split; [now right | assumption].
Qed.



(** ** The transformation stage *)
Section Transform.
Import Polars Pipeline.

Variable self : DataPipeline.

(** Materializing the transformed plan: the column expressions on every
    row, then the two filters, positivity first. *)
Lemma evaluate_transform (df : LazyFrame SourceRow) srcs :
  evaluate (transform self df) srcs =
  match evaluate df srcs with
  | Ok rows =>
      match traverse coerce_and_fill rows with
      | Ok events => Ok (List.filter (keep recent_mask) (List.filter (keep positive_mask) events))
      | Raise e => Raise e
      end
  | Raise e => Raise e
  end.
Proof.
  unfold transform. cbn [evaluate].
  destruct (evaluate df srcs) as [rows|e]; [|reflexivity].
  destruct (traverse coerce_and_fill rows); reflexivity.
Qed.


Lemma coerce_and_fill_Ok (r : SourceRow) (r' : EventRow) :
  coerce_and_fill r = Ok r' ->
  id r' = src_id r /\ event_type r' = src_event_type r /\
  value r' = fill_null (src_value r) 0%float /\
  str_to_datetime (src_timestamp r) = Ok (timestamp r') /\
  metadata r' = src_metadata r.
Proof.
  unfold coerce_and_fill.
  destruct (str_to_datetime (src_timestamp r)) as [ts|e]; [|discriminate].
  cbn. intros [= <-]. cbn. repeat split; reflexivity.
Qed.

(** Every row of the materialized output satisfies both filters. *)
Lemma transform_output_invariants (df : LazyFrame SourceRow) srcs out :
  evaluate (transform self df) srcs = Ok out ->
  forall o, In o out ->
    (exists v, value o = Some v /\ float_gt v 0%float = true) /\
    (exists ts, timestamp o = Some ts /\ lower_bound <= ts).
Proof.
  rewrite evaluate_transform.
  destruct (evaluate df srcs) as [rows|e]; [|discriminate].
  destruct (traverse coerce_and_fill rows) as [events|e]; [|discriminate].
  intros [= <-] o Ho.
  apply filter_In in Ho as [Ho Hrecent].
  apply filter_In in Ho as [_ Hpositive].
  unfold keep, positive_mask, recent_mask, gt, ge in *. split.
  - destruct (value o) as [v|]; [|discriminate].
    exists v. split; [reflexivity|]. now destruct (float_gt v 0%float).
  - destruct (timestamp o) as [ts|]; [|discriminate].
    exists ts. split; [reflexivity|].
    destruct (lower_bound <=? ts) eqn:E; [lia | discriminate].
Qed.

End Transform.

Section TransformClaims.
Import Polars Pipeline.

(** C2. A source row whose [value] is null never reaches the materialized
    output of the default transform: its value is filled to 0 before the
    filters run, so the positivity mask rejects it; when its timestamp is
    before the lower bound the date mask rejects it too; and every row that
    is in the output stems from a source row whose [value] was not null. *)
Theorem null_value_row_never_materialized
    (self : DataPipeline) (df : LazyFrame SourceRow) srcs rows out (r : SourceRow) :
  evaluate df srcs = Ok rows ->
  In r rows ->
  src_value r = None ->
  evaluate (transform self df) srcs = Ok out ->
  (exists r', coerce_and_fill r = Ok r' /\
     value r' = Some 0%float /\
     keep positive_mask r' = false /\
     (forall ts, timestamp r' = Some ts -> ts < lower_bound -> keep recent_mask r' = false) /\
     ~ In r' out) /\
  (forall o, In o out ->
     exists s, In s rows /\ coerce_and_fill s = Ok o /\ src_value s <> None).
Proof.
  intros Hrows Hr Hnull Hout.
  pose proof (transform_output_invariants self df srcs out Hout) as Hinv.
  rewrite evaluate_transform, Hrows in Hout.
  destruct (traverse coerce_and_fill rows) as [events|e] eqn:Ht; [|discriminate].
  injection Hout as <-. split.
  - destruct (traverse_Ok_forward _ _ _ Ht r Hr) as (r' & Hr' & _).
    exists r'. split; [assumption|].
    destruct (coerce_and_fill_Ok _ _ Hr') as (_ & _ & Hv & _).
    rewrite Hnull in Hv. cbn in Hv.
    split; [assumption|]. split; [|split].
    + unfold keep, positive_mask. now rewrite Hv.
    + intros ts Hts Hlt. unfold keep, recent_mask, ge. rewrite Hts.
      destruct (lower_bound <=? ts) eqn:E; [lia | reflexivity].
    + intros Hin. destruct (Hinv r' Hin) as ((v & Hv' & Hgt) & _).
      rewrite Hv in Hv'. injection Hv' as <-. discriminate Hgt.
  - intros o Ho. destruct (Hinv o Ho) as ((v & Hv & Hgt) & _).
    apply filter_In in Ho as [Ho _]. apply filter_In in Ho as [Ho _].
    destruct (traverse_Ok_backward _ _ _ Ht o Ho) as (s & Hs & Hso).
    exists s. split; [assumption|]. split; [assumption|].
    intros Hsnull. destruct (coerce_and_fill_Ok _ _ Hso) as (_ & _ & Hv' & _).
    rewrite Hsnull in Hv'. cbn in Hv'. rewrite Hv in Hv'.
    injection Hv' as ->. discriminate Hgt.
Qed.


End TransformClaims.

Section TransformExamples.
Import Polars Pipeline Scenario.

Lemma null_value_row_never_materialized_witness :
  In row_null_late [row_null_late; row_a; row_null_early] /\
  src_value row_null_late = None /\
  (exists r', coerce_and_fill row_null_late = Ok r' /\
     value r' = Some 0%float /\
     keep positive_mask r' = false /\
     (forall ts, timestamp r' = Some ts -> ts < lower_bound -> keep recent_mask r' = false) /\
     ~ In r' (match evaluate (transform pipeline0 (extract pipeline0 "data/nulls.csv"))
                           (sources world0) with
              | Ok out => out
              | Raise _ => []
              end)).
Proof.
  split; [now left|]. split; [reflexivity|].
  refine (proj1 (null_value_row_never_materialized pipeline0
            (extract pipeline0 "data/nulls.csv") (sources world0)
            [row_null_late; row_a; row_null_early] _ row_null_late _ _ _ _)).
  - reflexivity.
  - now left.
  - reflexivity.
  - reflexivity.
Defined.



End TransformExamples.

(** ** The store and the world *)

Lemma bind_run {A B} (m : M A) (f : A -> M B) (w : World) :
  (m ≫= f) w =
  match m w with
  | (Ok a, w') => f a w'
  | (Raise e, w') => (Raise e, w')
  end.
Proof. reflexivity. Qed.

Lemma set_databases_same (w : World) : set_databases (databases w) w = w.
Proof. now destruct w. Qed.

Lemma create_table_lookup (name : string) cols (catalog : gmap string DuckDB.table) n t :
  catalog !! n = Some t ->
  DuckDB.create_table_if_not_exists name cols catalog !! n = Some t.
Proof.
  intros H. unfold DuckDB.create_table_if_not_exists.
  destruct (catalog !! name) eqn:E; [assumption|].
  rewrite lookup_insert_ne; [assumption | congruence].
Qed.

Lemma create_table_exists (name : string) cols (catalog : gmap string DuckDB.table) :
  is_Some (DuckDB.create_table_if_not_exists name cols catalog !! name).
Proof.
  unfold DuckDB.create_table_if_not_exists.
  destruct (catalog !! name) eqn:E; [now rewrite E|].
  rewrite lookup_insert_eq. now eexists.
Qed.

Lemma create_table_present (name : string) cols (catalog : gmap string DuckDB.table) :
  is_Some (catalog !! name) ->
  DuckDB.create_table_if_not_exists name cols catalog = catalog.
Proof.
  intros [t H]. unfold DuckDB.create_table_if_not_exists. now rewrite H.
Qed.

(** On an open connection a statement that binds runs and replaces the
    catalog of the connected database. *)
Lemma sql_execute_open (con : nat) statement (w : World) path catalog :
  connections w !! con = Some path ->
  statement (default ∅ (databases w !! path)) = Ok catalog ->
  sql_execute con statement w
  = (Ok tt, set_databases (<[path := catalog]> (databases w)) w).
Proof. intros Hc Hs. unfold sql_execute. now rewrite Hc, Hs. Qed.

Lemma sql_execute_refused (con : nat) statement (w : World) path e :
  connections w !! con = Some path ->
  statement (default ∅ (databases w !! path)) = Raise e ->
  sql_execute con statement w = (Raise e, w).
Proof. intros Hc Hs. unfold sql_execute. now rewrite Hc, Hs. Qed.

Section InitTables.
Import Pipeline.

Lemma init_tables_open (self : DataPipeline) (w : World) path :
  connections w !! duckdb self = Some path ->
  _init_duckdb_tables self w
  = (Ok tt, set_databases
              (<[path := initialized (default ∅ (databases w !! path))]> (databases w)) w).
Proof.
  intros Hc. unfold _init_duckdb_tables. rewrite bind_run.
  erewrite sql_execute_open by (try eassumption; reflexivity).
  erewrite sql_execute_open; [| exact Hc | reflexivity].
  cbn [databases set_databases]. rewrite lookup_insert_eq. cbn [default from_option Datatypes.id].
  unfold initialized. f_equal.
  destruct w; unfold set_databases; cbn. f_equal. apply insert_insert_eq.
Qed.

Lemma initialized_idempotent (catalog : gmap string DuckDB.table) :
  initialized (initialized catalog) = initialized catalog.
Proof.
  unfold initialized at 1.
  rewrite (create_table_present "raw_events").
  - apply create_table_present. apply create_table_exists.
  - unfold initialized.
    destruct (create_table_exists "raw_events" raw_events_columns catalog) as [t Ht].
    exists t. now apply create_table_lookup.
Qed.

Lemma initialized_lookup (catalog : gmap string DuckDB.table) n t :
  catalog !! n = Some t -> initialized catalog !! n = Some t.
Proof. intros H. unfold initialized. now do 2 apply create_table_lookup. Qed.

(** C9. On an open connection the table-initialization step succeeds; run a
    second time it succeeds again and changes nothing; and every table that
    existed before the first run, in any database, is still there with the
    same columns and rows. *)
Theorem init_duckdb_tables_idempotent (self : DataPipeline) (w : World) path :
  connections w !! duckdb self = Some path ->
  exists w1,
    _init_duckdb_tables self w = (Ok tt, w1) /\
    _init_duckdb_tables self w1 = (Ok tt, w1) /\
    (forall p catalog n t,
        databases w !! p = Some catalog -> catalog !! n = Some t ->
        exists catalog1, databases w1 !! p = Some catalog1 /\ catalog1 !! n = Some t).
Proof.
  intros Hc. eexists. split; [exact (init_tables_open self w path Hc)|]. split.
  - rewrite (init_tables_open self _ path) by exact Hc.
    cbn [databases set_databases]. rewrite lookup_insert_eq. cbn [default from_option Datatypes.id].
    rewrite initialized_idempotent, insert_insert_eq.
    now destruct w.
  - intros p catalog n t Hp Hn. cbn [databases set_databases].
    destruct (decide (path = p)) as [->|Hne].
    + rewrite lookup_insert_eq, Hp. cbn [default from_option Datatypes.id].
      eexists. split; [reflexivity|]. now apply initialized_lookup.
    + rewrite lookup_insert_ne by assumption. now exists catalog.
Qed.

Lemma init_duckdb_tables_idempotent_witness :
  exists w1,
    Pipeline._init_duckdb_tables Scenario.pipeline0 Scenario.world1 = (Ok tt, w1) /\
    Pipeline._init_duckdb_tables Scenario.pipeline0 w1 = (Ok tt, w1) /\
    (forall p catalog n t,
        databases Scenario.world1 !! p = Some catalog -> catalog !! n = Some t ->
        exists catalog1, databases w1 !! p = Some catalog1 /\ catalog1 !! n = Some t).
Proof.
  exact (init_duckdb_tables_idempotent Scenario.pipeline0 Scenario.world1 "analytics.db" eq_refl).
Defined.

End InitTables.

(** ** Construction *)
Section Construction.
Import Pipeline.

Lemma connected_connections (path : string) (w : World) :
  connections (connected path w) = <[next_handle w := path]> (connections w).
Proof. reflexivity. Qed.

Lemma connected_trace (path : string) (w : World) :
  trace (connected path w) = (trace w ++ [Connect (next_handle w) path])%list.
Proof. reflexivity. Qed.

(** The constructor, case by case on the configuration file. *)
Lemma init_cases (config_path : string) (w : World) :
  __init__ config_path w =
  match files w !! config_path with
  | None => (Raise FileNotFoundError, w)
  | Some NotJSON => (Raise JSONDecodeError, w)
  | Some (JSONText (JObject members)) =>
      match members !! "duckdb_path" with
      | None => (Raise (KeyError "duckdb_path"), w)
      | Some (JString path) =>
          (Ok {| config := JObject members; duckdb := next_handle w |}, constructed path w)
      | Some _ => (Raise TypeError, w)
      end
  | Some (JSONText _) => (Raise TypeError, w)
  end.
Proof.
  unfold __init__. rewrite bind_run. unfold json_load.
  destruct (files w !! config_path) as [[|j]|]; try reflexivity.
  rewrite bind_run. unfold lift.
  destruct j as [| | | | |members]; try reflexivity.
  cbn [getitem]. destruct (members !! "duckdb_path") as [v|]; [|reflexivity].
  cbv beta iota. rewrite bind_run.
  destruct v as [| | |path| |]; try reflexivity.
  change (duckdb_connect (JString path) w) with (Ok (next_handle w), connected path w).
  cbv beta iota. rewrite bind_run.
  rewrite (init_tables_open _ (connected path w) path).
  - reflexivity.
  - cbn [duckdb]. rewrite connected_connections. apply lookup_insert_eq.
Qed.

(** C8, as the code has it. The constructor raises [FileNotFoundError]
    exactly when the configuration file is missing, [JSONDecodeError]
    exactly when its text is not JSON, and [KeyError] exactly when it decodes
    to an object without the key "duckdb_path"; whatever exception the
    constructor raises, the world is left as it was (no connection opened, no
    database created or changed). *)
Theorem init_configuration_errors (config_path : string) (w : World) :
  (files w !! config_path = None <->
   fst (__init__ config_path w) = Raise FileNotFoundError) /\
  (files w !! config_path = Some NotJSON <->
   fst (__init__ config_path w) = Raise JSONDecodeError) /\
  ((exists members, files w !! config_path = Some (JSONText (JObject members)) /\
                    members !! "duckdb_path" = None) <->
   fst (__init__ config_path w) = Raise (KeyError "duckdb_path")) /\
  (forall e, fst (__init__ config_path w) = Raise e -> snd (__init__ config_path w) = w).
Proof.
  rewrite init_cases.
  destruct (files w !! config_path) as [[|j]|] eqn:Hf.
  - repeat split; try discriminate; try reflexivity.
    intros (members & H & _). discriminate H.
  - destruct j as [| | | | |members];
      try (repeat split; try discriminate; try reflexivity;
           intros (members & H & _); discriminate H).
    destruct (members !! "duckdb_path") as [v|] eqn:Hk.
    + destruct v as [| | |path| |];
        (repeat split; try discriminate; try reflexivity;
         intros (members' & H & Hk'); injection H as <-; congruence).
    + repeat split; try discriminate; try reflexivity.
      intros _. now exists members.
  - repeat split; try discriminate; try reflexivity.
    intros (members & H & _). discriminate H.
Qed.

End Construction.

(** C8, as stated, fails: with no file at "missing.json" the constructor
    raises, but the exception is a [FileNotFoundError], not a [ConfigError]
    (no exception of the program has that class). *)
Lemma missing_config_is_not_ConfigError :
  files Scenario.world0 !! "missing.json" = None /\
  ~ (exists e, fst (Pipeline.__init__ "missing.json" Scenario.world0) = Raise e /\
               class_name e = "ConfigError").
Proof.
  split; [reflexivity|].
  intros (e & He & Hc). vm_compute in He. injection He as <-. discriminate Hc.
Qed.

(** ** What the operations leave alone *)
Section Frames.
Import Polars Pipeline.

Variable P : event -> bool.

Lemma emits_no_ret {A} (a : A) : emits_no P (mret a).
Proof. intros w. reflexivity. Qed.

Lemma emits_no_raise {A} (e : exn) : emits_no P (@raise A e).
Proof. intros w. reflexivity. Qed.

Lemma emits_no_lift {A} (r : result A) : emits_no P (lift r).
Proof. intros w. reflexivity. Qed.

Lemma emits_no_bind {A B} (m : M A) (f : A -> M B) :
  emits_no P m -> (forall a, emits_no P (f a)) -> emits_no P (m ≫= f).
Proof.
  intros Hm Hf w. rewrite bind_run. specialize (Hm w).
  destruct (m w) as [[a|e] w1]; cbn [snd] in *; [|assumption].
  now rewrite Hf.
Qed.

Lemma emits_no_try_except {A} (body : M A) (handler : exn -> M A) :
  emits_no P body -> (forall e, emits_no P (handler e)) ->
  emits_no P (try_except body handler).
Proof.
  intros Hm Hf w. unfold try_except. specialize (Hm w).
  destruct (body w) as [[a|e] w1]; cbn [snd] in *; [assumption|].
  now rewrite Hf.
Qed.

Lemma emits_no_tell (e : event) : P e = false -> emits_no P (tell e).
Proof.
  intros He w. cbn. rewrite List.filter_app. cbn. rewrite He. apply app_nil_r.
Qed.

Lemma emits_no_datetime_now : emits_no P datetime_now.
Proof. intros w. reflexivity. Qed.

Lemma emits_no_sql_execute con statement : emits_no P (sql_execute con statement).
Proof.
  intros w. unfold sql_execute.
  destruct (connections w !! con); [|reflexivity].
  now destruct (statement _).
Qed.

Lemma emits_no_sql_query {A} con (query : Z -> gmap string DuckDB.table -> result A) :
  emits_no P (sql_query con query).
Proof. intros w. unfold sql_query. now destruct (connections w !! con). Qed.

Lemma emits_no_collect {A} (lf : LazyFrame A) : P Collect = false -> emits_no P (collect lf).
Proof.
  intros He w. cbn. rewrite List.filter_app. cbn. rewrite He. apply app_nil_r.
Qed.

Lemma keeps_connections_ret {A} (a : A) : keeps_connections (mret a).
Proof. intros w. reflexivity. Qed.

Lemma keeps_connections_raise {A} (e : exn) : keeps_connections (@raise A e).
Proof. intros w. reflexivity. Qed.

Lemma keeps_connections_lift {A} (r : result A) : keeps_connections (lift r).
Proof. intros w. reflexivity. Qed.

Lemma keeps_connections_bind {A B} (m : M A) (f : A -> M B) :
  keeps_connections m -> (forall a, keeps_connections (f a)) -> keeps_connections (m ≫= f).
Proof.
  intros Hm Hf w. rewrite bind_run. specialize (Hm w).
  destruct (m w) as [[a|e] w1]; cbn [snd] in *; [|assumption].
  now rewrite Hf.
Qed.

Lemma keeps_connections_try_except {A} (body : M A) (handler : exn -> M A) :
  keeps_connections body -> (forall e, keeps_connections (handler e)) ->
  keeps_connections (try_except body handler).
Proof.
  intros Hm Hf w. unfold try_except. specialize (Hm w).
  destruct (body w) as [[a|e] w1]; cbn [snd] in *; [assumption|].
  now rewrite Hf.
Qed.

Lemma keeps_connections_tell (e : event) : keeps_connections (tell e).
Proof. intros w. reflexivity. Qed.

Lemma keeps_connections_datetime_now : keeps_connections datetime_now.
Proof. intros w. reflexivity. Qed.

Lemma keeps_connections_sql_execute con statement :
  keeps_connections (sql_execute con statement).
Proof.
  intros w. unfold sql_execute.
  destruct (connections w !! con); [|reflexivity].
  now destruct (statement _).
Qed.

Lemma keeps_connections_sql_query {A} con (query : Z -> gmap string DuckDB.table -> result A) :
  keeps_connections (sql_query con query).
Proof. intros w. unfold sql_query. now destruct (connections w !! con). Qed.

Lemma keeps_connections_collect {A} (lf : LazyFrame A) : keeps_connections (collect lf).
Proof. intros w. reflexivity. Qed.

End Frames.

Create HintDb frames.

#[export] Hint Resolve emits_no_ret emits_no_raise emits_no_lift emits_no_bind
  emits_no_try_except emits_no_tell emits_no_datetime_now emits_no_sql_execute
  emits_no_sql_query emits_no_collect
  keeps_connections_ret keeps_connections_raise keeps_connections_lift
  keeps_connections_bind keeps_connections_try_except keeps_connections_tell
  keeps_connections_datetime_now keeps_connections_sql_execute
  keeps_connections_sql_query keeps_connections_collect : frames.

Ltac frame :=
  repeat (intros;
          match goal with
          | H : _ |- _ => solve [apply H]
          | |- emits_no _ (_ ≫= _) => apply emits_no_bind
          | |- emits_no _ (try_except _ _) => apply emits_no_try_except
          | |- keeps_connections (_ ≫= _) => apply keeps_connections_bind
          | |- keeps_connections (try_except _ _) => apply keeps_connections_try_except
          | |- emits_no _ (logger_info _) => apply emits_no_tell; reflexivity
          | |- emits_no _ (logger_error _) => apply emits_no_tell; reflexivity
          | |- keeps_connections (logger_info _) => apply keeps_connections_tell
          | |- keeps_connections (logger_error _) => apply keeps_connections_tell
          | _ => solve [auto with frames]
          end).

Section MethodFrames.
Import Polars Pipeline.

Variable self : DataPipeline.

Lemma load_emits_no P df : emits_no P (load self df).
Proof. unfold load. frame. Qed.

Lemma load_keeps_connections df : keeps_connections (load self df).
Proof. unfold load. frame. Qed.

Lemma get_summary_emits_no P days : emits_no P (get_summary self days).
Proof. unfold get_summary. frame. Qed.

Lemma get_summary_keeps_connections days : keeps_connections (get_summary self days).
Proof. unfold get_summary. frame. Qed.

Lemma get_watermark_emits_no P table_name : emits_no P (get_watermark self table_name).
Proof. unfold get_watermark. frame. Qed.

Lemma get_watermark_keeps_connections table_name :
  keeps_connections (get_watermark self table_name).
Proof. unfold get_watermark. frame. Qed.

Lemma run_emits_no_lifecycle source_path : emits_no is_lifecycle (run self source_path).
Proof.
  pose proof (load_emits_no is_lifecycle).
  unfold run. frame.
Qed.

Lemma run_keeps_connections source_path : keeps_connections (run self source_path).
Proof.
  pose proof load_keeps_connections.
  unfold run. frame.
Qed.

End MethodFrames.

(** ** The scoped connection *)
Section Scope.
Import Pipeline.

Variable self : DataPipeline.
Variable open_before : gmap nat string.   (* the open connections, this pipeline's included *)
Variable events_before : list event.      (* the connection events so far *)

Hypothesis connection_open : is_Some (open_before !! duckdb self).

Local Abbreviation is_live w := (live open_before events_before w).
Local Abbreviation is_released w := (released self open_before events_before w).

Lemma exit_releases (w : World) :
  is_live w \/ is_released w -> is_released (snd (__exit__ self w)).
Proof.
  unfold __exit__, duckdb_close. intros [[Hc Ht]|[Hc Ht]].
  - destruct connection_open as [path Hp].
    rewrite Hc, Hp. cbn [snd]. split; [reflexivity|].
    unfold lifecycle in *. cbn [trace emit]. rewrite List.filter_app.
    cbn [trace set_connections]. now rewrite Ht.
  - rewrite Hc, lookup_delete_eq. cbn [snd]. now split.
Qed.

Lemma perform_keeps_state (c : call) (w : World) :
  is_live w \/ is_released w ->
  is_live (snd (perform self c w)) \/ is_released (snd (perform self c w)).
Proof.
  assert (Hsteady : forall (m : M unit),
             keeps_connections m -> emits_no is_lifecycle m ->
             is_live w \/ is_released w ->
             is_live (snd (m w)) \/ is_released (snd (m w))).
  { intros m Hk He. unfold live, released, lifecycle.
    now rewrite (Hk w), (He w). }
  destruct c; cbn [perform].
  - apply Hsteady.
    + pose proof (run_keeps_connections self). frame.
    + pose proof (run_emits_no_lifecycle self). frame.
  - apply Hsteady.
    + pose proof (get_summary_keeps_connections self). frame.
    + pose proof (get_summary_emits_no self is_lifecycle). frame.
  - apply Hsteady.
    + pose proof (get_watermark_keeps_connections self). frame.
    + pose proof (get_watermark_emits_no self is_lifecycle). frame.
  - intros H. right. now apply exit_releases.
  - apply Hsteady; frame.
Qed.

Lemma block_keeps_state (calls : list call) (w : World) :
  is_live w \/ is_released w ->
  is_live (snd (block self calls w)) \/ is_released (snd (block self calls w)).
Proof.
  revert w. induction calls as [|c calls IH]; intros w H; [exact H|].
  cbn [block]. rewrite bind_run.
  pose proof (perform_keeps_state c w H) as Hc.
  destruct (perform self c w) as [[[]|e] w1]; cbn [snd] in *; [|exact Hc].
  now apply IH.
Qed.

End Scope.

Section ScopeClaim.
Import Pipeline.

(** C6. For a valid configuration (the file decodes to an object whose
    "duckdb_path" is a string) and any body of the [with] block (calls of
    the public methods, an explicit shutdown, a raised exception, in any
    order), the whole statement adds exactly two connection events to the
    trace, one [Connect] made by the constructor and one [Close] of that same
    handle, and the set of open connections afterwards is the one from
    before the statement. *)
Theorem connection_acquired_and_released_once
    (config_path : string) (members : gmap string json) (path : string)
    (calls : list call) (w : World) :
  files w !! config_path = Some (JSONText (JObject members)) ->
  members !! "duckdb_path" = Some (JString path) ->
  connections w !! next_handle w = None ->
  let w' := snd (with_pipeline config_path (fun pipeline => block pipeline calls) w) in
  lifecycle (trace w')
  = (lifecycle (trace w) ++ [Connect (next_handle w) path; Close (next_handle w)])%list /\
  connections w' = connections w.
Proof.
  intros Hf Hk Hfresh. cbv zeta.
  unfold with_pipeline. rewrite init_cases, Hf, Hk.
  set (self := {| config := JObject members; duckdb := next_handle w |}).
  set (w1 := constructed path w).
  set (C := <[next_handle w := path]> (connections w)).
  set (L := (lifecycle (trace w) ++ [Connect (next_handle w) path])%list).
  assert (Hlive : live C L w1).
  { split; [reflexivity|]. unfold L, lifecycle, w1, constructed.
    cbn [trace set_databases]. rewrite connected_trace, List.filter_app. reflexivity. }
  assert (Hopen : is_Some (C !! duckdb self)).
  { unfold C. cbn [duckdb self]. rewrite lookup_insert_eq. now eexists. }
  pose proof (block_keeps_state self C L Hopen calls w1 (or_introl Hlive)) as Hbody.
  unfold __enter__.
  destruct (block self calls w1) as [r w2]. cbn [snd] in Hbody.
  pose proof (exit_releases self C L Hopen w2 Hbody) as [Hc Ht].
  assert (Hexit : exists w3, __exit__ self w2 = (Ok tt, w3)).
  { unfold __exit__, duckdb_close. destruct (connections w2 !! duckdb self); now eexists. }
  destruct Hexit as [w3 Hexit]. rewrite Hexit in *. cbn [snd] in *.
  split.
  - rewrite Ht. unfold L. now rewrite <- app_assoc.
  - rewrite Hc. unfold C. cbn [duckdb self].
    rewrite delete_insert_eq. now apply delete_id.
Qed.

Lemma connection_acquired_and_released_once_witness :
  connections Scenario.world0 !! next_handle Scenario.world0 = None /\
  lifecycle (trace (snd (with_pipeline "config.json"
                           (fun pipeline => block pipeline []) Scenario.world0)))
  = [Connect 0 "analytics.db"; Close 0] /\
  connections (snd (with_pipeline "config.json"
                      (fun pipeline => block pipeline []) Scenario.world0)) = ∅.
Proof.
  split; [reflexivity|].
  exact (connection_acquired_and_released_once "config.json" _ "analytics.db" []
           Scenario.world0 eq_refl eq_refl eq_refl).
Defined.

End ScopeClaim.

(** ** Materializations of a run *)
Section Materialization.
Import Polars Pipeline.

Variable self : DataPipeline.

(** [extract] only builds a scan of the source: evaluating it returns the
    rows stored there. *)
Lemma evaluate_extract (source : string) srcs :
  evaluate (extract self source) srcs =
  match srcs !! source with
  | Some rows => Ok rows
  | None => Raise FileNotFoundError
  end.
Proof.
  unfold extract.
  destruct (endswith source ".csv"); [reflexivity|].
  destruct (startswith source "s3://"); reflexivity.
Qed.

Lemma materializations_emit (e : event) (w : World) :
  materializations (trace (emit e w))
  = (materializations (trace w) + (if is_collect e then 1 else 0))%nat.
Proof.
  unfold materializations. cbn [trace emit].
  rewrite List.filter_app, length_app. cbn [List.filter].
  now destruct (is_collect e).
Qed.

Lemma emits_no_materializations {A} (m : M A) (w : World) :
  emits_no is_collect m ->
  materializations (trace (snd (m w))) = materializations (trace w).
Proof. intros H. unfold materializations. now rewrite H. Qed.

(** C5, what the code does. Whenever the source can be read, one [run]
    materializes a lazy frame twice, not once: the raw scan is collected for
    the log line before [transform] is applied, and the transformed plan is
    collected before [load]; this holds whether the run then succeeds or
    raises. ([extract] and [transform] themselves are functions that return a
    plan and have no access to the world.) *)
Theorem run_materializes_twice (source_path : string) (w : World) rows :
  sources w !! source_path = Some rows ->
  materializations (trace (snd (run self source_path w)))
  = (materializations (trace w) + 2)%nat.
Proof.
  intros Hs. unfold run. rewrite bind_run.
  change (logger_info (Starting source_path) w)
    with (Ok tt, emit (LogInfo (Starting source_path)) w).
  cbv beta iota. set (w1 := emit (LogInfo (Starting source_path)) w).
  assert (Hhandler : forall e w',
             materializations
               (trace (snd ((logger_error (Failed e);; @raise LoadResult.t e) w')))
             = materializations (trace w')).
  { intros e w'. apply emits_no_materializations. frame. }
  unfold try_except. rewrite bind_run.
  change (collect (extract self source_path) w1)
    with (evaluate (extract self source_path) (sources w), emit Collect w1).
  rewrite evaluate_extract, Hs. cbv beta iota. rewrite bind_run.
  set (w2 := emit Collect w1).
  change (logger_info (SourceRows (len rows)) w2)
    with (Ok tt, emit (LogInfo (SourceRows (len rows))) w2).
  cbv beta iota. set (w3 := emit (LogInfo (SourceRows (len rows))) w2).
  rewrite bind_run.
  change (collect (transform self (extract self source_path)) w3)
    with (evaluate (transform self (extract self source_path)) (sources w), emit Collect w3).
  set (w4 := emit Collect w3).
  assert (H4 : materializations (trace w4) = (materializations (trace w) + 2)%nat).
  { unfold w4, w3, w2, w1. rewrite !materializations_emit. cbn [is_collect]. lia. }
  destruct (evaluate (transform self (extract self source_path)) (sources w)) as [df|e];
    cbv beta iota.
  - assert (Htail : emits_no is_collect
                      (load self df ≫= fun load_result =>
                         logger_info (Completed load_result);; mret load_result)).
    { pose proof (load_emits_no self is_collect). frame. }
    apply emits_no_materializations with (w := w4) in Htail.
    destruct ((load self df ≫= _) w4) as [[a|e] w5]; cbn [snd] in *.
    + congruence.
    + rewrite Hhandler. congruence.
  - rewrite Hhandler. exact H4.
Qed.

End Materialization.

(** ** The watermark *)
Section Watermark.
Import Polars Pipeline.

Lemma sql_max_fold (col : list (option Z)) (acc : option Z) :
  fold_left (fun acc c =>
               match c, acc with
               | DuckDB.Null, _ => acc
               | _, DuckDB.Null => c
               | _, _ => if DuckDB.cell_lt acc c then c else acc
               end) (map DuckDB.timestamp_cell col) (DuckDB.timestamp_cell acc)
  = DuckDB.timestamp_cell
      (fold_left (fun acc c =>
                    match c, acc with
                    | None, _ => acc
                    | Some x, None => Some x
                    | Some x, Some a => Some (Z.max a x)
                    end) col acc).
Proof.
  revert acc. induction col as [|c col IH]; intros acc; [reflexivity|].
  cbn [map fold_left]. destruct c as [x|]; [|apply IH].
  destruct acc as [a|]; cbn [DuckDB.timestamp_cell DuckDB.cell_lt].
  - rewrite <- IH. f_equal.
    destruct (a <? x) eqn:E; cbn [DuckDB.timestamp_cell]; f_equal; lia.
  - now rewrite <- IH.
Qed.

Lemma sql_max_timestamps (col : list (option Z)) :
  DuckDB.sql_max (map DuckDB.timestamp_cell col) = DuckDB.timestamp_cell (max_timestamp col).
Proof. exact (sql_max_fold col None). Qed.

Lemma max_timestamp_fold_spec (col : list (option Z)) (acc : option Z) :
  let m := fold_left (fun acc c =>
                        match c, acc with
                        | None, _ => acc
                        | Some x, None => Some x
                        | Some x, Some a => Some (Z.max a x)
                        end) col acc in
  (forall x, acc = Some x \/ In (Some x) col -> exists y, m = Some y /\ x <= y) /\
  (forall y, m = Some y -> acc = Some y \/ In (Some y) col).
Proof.
  revert acc. induction col as [|c col IH]; intros acc; cbn zeta.
  - split.
    + intros x [->|[]]. exists x. split; [reflexivity | lia].
    + intros y H. now left.
  - cbn [fold_left]. destruct c as [x|].
    + destruct acc as [a|].
      * destruct (IH (Some (Z.max a x))) as [Hub Hin]. split.
        -- intros z [[= ->]|[[= ->]|Hz]].
           ++ destruct (Hub (Z.max z x) (or_introl eq_refl)) as (y & Hy & Hle).
              exists y. split; [assumption | lia].
           ++ destruct (Hub (Z.max a z) (or_introl eq_refl)) as (y & Hy & Hle).
              exists y. split; [assumption | lia].
           ++ apply Hub. now right.
        -- intros y Hy. destruct (Hin y Hy) as [[= <-]|H].
           ++ destruct (Z.max_spec a x) as [[_ ->]|[_ ->]]; [right; now left | now left].
           ++ right. now right.
      * destruct (IH (Some x)) as [Hub Hin]. split.
        -- intros z [[=]|[[= ->]|Hz]].
           ++ apply Hub. now left.
           ++ apply Hub. now right.
        -- intros y Hy. destruct (Hin y Hy) as [[= <-]|H].
           ++ right. now left.
           ++ right. now right.
    + destruct (IH acc) as [Hub Hin]. split.
      * intros z [Hz|[[=]|Hz]]; apply Hub; [now left | now right].
      * intros y Hy. destruct (Hin y Hy) as [H|H]; [now left | right; now right].
Qed.

(** [max_timestamp] is the maximum of the non-null cells: it is one of them
    and no cell exceeds it; it is [None] exactly when every cell is null. *)
Lemma max_timestamp_spec (col : list (option Z)) :
  (forall x, In (Some x) col -> exists y, max_timestamp col = Some y /\ x <= y) /\
  (forall y, max_timestamp col = Some y -> In (Some y) col).
Proof.
  destruct (max_timestamp_fold_spec col None) as [Hub Hin]. split.
  - intros x Hx. apply Hub. now right.
  - intros y Hy. destruct (Hin y Hy) as [[=]|H]. exact H.
Qed.

Variable self : DataPipeline.

(** The watermark query never changes the world. *)
Lemma get_watermark_read_only (table_name : string) (w : World) :
  snd (get_watermark self table_name w) = w.
Proof.
  unfold get_watermark. rewrite bind_run. unfold sql_query.
  destruct (connections w !! duckdb self); [|reflexivity].
  now destruct (DuckDB.select_max _ _ _).
Qed.

(** The watermark of a raw-events table with the declared columns. *)
Lemma get_watermark_value (w : World) path catalog t :
  connections w !! duckdb self = Some path ->
  databases w !! path = Some catalog ->
  catalog !! "raw_events" = Some t ->
  DuckDB.columns t = raw_events_columns ->
  fst (get_watermark self "raw_events" w)
  = Ok (let m := DuckDB.sql_max (map (DuckDB.cell_at 3) (DuckDB.rows t)) in
        if DuckDB.truthy m then m else DuckDB.Null).
Proof.
  intros Hc Hd Ht Hcols. unfold get_watermark. rewrite bind_run.
  unfold sql_query. rewrite Hc, Hd. cbn [default from_option Datatypes.id]. cbv beta.
  unfold DuckDB.select_max. rewrite Ht, Hcols. reflexivity.
Qed.

Lemma events_relation_timestamps (df : list EventRow) :
  map (DuckDB.cell_at 3) (DuckDB.rows (DuckDB.events_relation df))
  = map DuckDB.timestamp_cell (map timestamp df).
Proof. cbn [DuckDB.rows DuckDB.events_relation]. rewrite !map_map. reflexivity. Qed.

End Watermark.

Section WatermarkClaim.
Import Polars Pipeline.

Variable self : DataPipeline.

(** [INSERT INTO raw_events SELECT * FROM df], the first statement of
    [load], on a raw-events table with the declared columns. *)
Lemma insert_raw_events (df : list EventRow) (w : World) path catalog t :
  connections w !! duckdb self = Some path ->
  databases w !! path = Some catalog ->
  catalog !! "raw_events" = Some t ->
  DuckDB.columns t = raw_events_columns ->
  sql_execute (duckdb self)
    (DuckDB.insert_select_star "raw_events" (DuckDB.events_relation df)) w
  = (Ok tt,
     set_databases
       (<[path := <["raw_events" :=
                      {| DuckDB.columns := DuckDB.columns t;
                         DuckDB.rows := (DuckDB.rows t
                                         ++ DuckDB.rows (DuckDB.events_relation df))%list |}]>
                    catalog]> (databases w)) w).
Proof.
  intros Hc Hd Ht Hcols. apply sql_execute_open; [assumption|].
  rewrite Hd. cbn [default from_option Datatypes.id].
  unfold DuckDB.insert_select_star. rewrite Ht, Hcols. reflexivity.
Qed.

(** C7. On a raw-events table with no rows the watermark is absent
    ([Null] stands for [None]); after events whose timestamps are t1 < t2 < t3
    (in any order) are inserted into it, the watermark is t3; for any frame
    inserted into it, the watermark is the largest non-null timestamp of the
    frame ([max_timestamp], see [max_timestamp_spec]); and in each case the
    query leaves the world exactly as it was. *)
Theorem watermark_of_raw_events (w : World) path catalog t :
  connections w !! duckdb self = Some path ->
  databases w !! path = Some catalog ->
  catalog !! "raw_events" = Some t ->
  DuckDB.columns t = raw_events_columns ->
  DuckDB.rows t = [] ->
  get_watermark self "raw_events" w = (Ok DuckDB.Null, w) /\
  (forall df,
      let w1 := snd (sql_execute (duckdb self)
                       (DuckDB.insert_select_star "raw_events" (DuckDB.events_relation df)) w) in
      get_watermark self "raw_events" w1
      = (Ok (DuckDB.timestamp_cell (max_timestamp (map timestamp df))), w1) /\
      forall t1 t2 t3,
        t1 < t2 -> t2 < t3 ->
        Permutation (map timestamp df) [Some t1; Some t2; Some t3] ->
        get_watermark self "raw_events" w1 = (Ok (DuckDB.Timestamp t3), w1)).
Proof.
  intros Hc Hd Ht Hcols Hrows.
  assert (Hpair : forall (w0 : World) c,
             fst (get_watermark self "raw_events" w0) = Ok c ->
             get_watermark self "raw_events" w0 = (Ok c, w0)).
  { intros w0 c H.
    pose proof (get_watermark_read_only self "raw_events" w0) as Hro.
    destruct (get_watermark self "raw_events" w0) as [r w']. cbn [fst snd] in *.
    now subst. }
  split.
  - apply Hpair. rewrite (get_watermark_value self w path catalog t) by assumption.
    now rewrite Hrows.
  - intros df. cbv zeta.
    rewrite (insert_raw_events df w path catalog t) by assumption. cbn [snd].
    set (w1 := set_databases _ w).
    assert (Hw1 : get_watermark self "raw_events" w1
                  = (Ok (DuckDB.timestamp_cell (max_timestamp (map timestamp df))), w1)).
    { apply Hpair.
      erewrite (get_watermark_value self w1 path);
        [ | exact Hc | unfold w1; cbn [databases set_databases]; apply lookup_insert_eq
          | apply lookup_insert_eq | exact Hcols ].
      cbn [DuckDB.rows]. rewrite Hrows, app_nil_l.
      rewrite events_relation_timestamps, sql_max_timestamps. cbv zeta.
      now destruct (max_timestamp (map timestamp df)). }
    split; [exact Hw1|].
    intros t1 t2 t3 H12 H23 Hperm. rewrite Hw1. do 2 f_equal.
    destruct (max_timestamp_spec (map timestamp df)) as [Hub Hin].
    destruct (Hub t3) as (y & Hy & Hle).
    { eapply Permutation_in; [symmetry; exact Hperm|]. cbn. tauto. }
    rewrite Hy. cbn [DuckDB.timestamp_cell]. f_equal.
    apply Hin in Hy. eapply Permutation_in in Hy; [|exact Hperm].
    cbn in Hy. destruct Hy as [[= <-]|[[= <-]|[[= <-]|[]]]]; lia.
Qed.

End WatermarkClaim.

Section WatermarkExample.
Import Polars Pipeline Scenario.

Lemma watermark_of_raw_events_witness :
  get_watermark pipeline0 "raw_events" world1 = (Ok DuckDB.Null, world1) /\
  fst (get_watermark pipeline0 "raw_events"
         (snd (sql_execute (duckdb pipeline0)
                 (DuckDB.insert_select_star "raw_events" (DuckDB.events_relation three_events))
                 world1)))
  = Ok (DuckDB.Timestamp (Calendar.datetime 2024 3 3 0 0 0)).
Proof.
  destruct (watermark_of_raw_events pipeline0 world1 "analytics.db"
              (initialized ∅)
              {| DuckDB.columns := raw_events_columns; DuckDB.rows := [] |})
    as [Hempty Hafter]; try reflexivity.
  split; [exact Hempty|].
  destruct (Hafter three_events) as [_ H3].
  rewrite (H3 (Calendar.datetime 2024 3 1 0 0 0) (Calendar.datetime 2024 3 2 0 0 0)
              (Calendar.datetime 2024 3 3 0 0 0)).
  - reflexivity.
  - reflexivity.
  - reflexivity.
  - symmetry. apply (Permutation_cons_append [_; _]).
Defined.

End WatermarkExample.

(** ** The load stage *)
Section Load.
Import Polars Pipeline.

Variable self : DataPipeline.

(** The frame [summary] has four columns whatever the data. *)
Lemma summary_relation_columns (summary : list SummaryRow) :
  length (DuckDB.columns (DuckDB.summary_relation summary)) = 4%nat.
Proof. reflexivity. Qed.

(** On tables with the declared columns, [load] appends the frame to
    [raw_events] and is then refused at the insert into [daily_summary]:
    the frame [summary] supplies four columns, the table declares five. *)
Lemma load_refused (df : list EventRow) (w : World) path catalog raw stored :
  connections w !! duckdb self = Some path ->
  databases w !! path = Some catalog ->
  catalog !! "raw_events" = Some raw ->
  DuckDB.columns raw = raw_events_columns ->
  catalog !! "daily_summary" = Some stored ->
  DuckDB.columns stored = daily_summary_columns ->
  load self df w
  = (Raise BinderException,
     set_databases
       (<[path := <["raw_events" :=
                      {| DuckDB.columns := DuckDB.columns raw;
                         DuckDB.rows := (DuckDB.rows raw
                                         ++ DuckDB.rows (DuckDB.events_relation df))%list |}]>
                    catalog]> (databases w)) w).
Proof.
  intros Hc Hd Hraw Hrcols Hsum Hscols.
  unfold load. rewrite bind_run.
  rewrite (insert_raw_events self df w path catalog raw) by assumption.
  cbv beta iota. rewrite bind_run.
  erewrite sql_execute_refused; [reflexivity | exact Hc |].
  cbn [databases set_databases]. rewrite lookup_insert_eq.
  cbn [default from_option Datatypes.id].
  unfold DuckDB.insert_select_star.
  rewrite lookup_insert_ne by discriminate. rewrite Hsum, Hscols.
  reflexivity.
Qed.

(** The summary query reads the connected database's [daily_summary] table
    and nothing else of the stores. *)
Lemma get_summary_depends_on_summary_table (days : Z) (w w' : World) path catalog catalog' :
  connections w !! duckdb self = Some path ->
  connections w' = connections w ->
  clock w' = clock w ->
  databases w !! path = Some catalog ->
  databases w' !! path = Some catalog' ->
  catalog' !! "daily_summary" = catalog !! "daily_summary" ->
  fst (get_summary self days w') = fst (get_summary self days w).
Proof.
  intros Hc Hc' Hclock Hd Hd' Hsame.
  unfold get_summary, sql_query. rewrite Hc', Hc, Hd, Hd', Hclock.
  cbn [fst default from_option Datatypes.id].
  unfold DuckDB.select_summary. now rewrite Hsame.
Qed.

End Load.

Section LoadClaims.
Import Polars Pipeline.

(** C1, what the code does. On a store whose two tables have the columns
    [_init_duckdb_tables] declares, [load] of any frame raises
    [BinderException] at the insert into [daily_summary] (after the frame was
    appended to [raw_events]); the summary table keeps the rows it had, so
    [get_summary] returns afterwards what it returned before the load, and
    no aggregate of the loaded frame. *)
Theorem load_raises_before_summary_is_stored
    (self : DataPipeline) (df : list EventRow) (w : World) path catalog raw stored :
  connections w !! duckdb self = Some path ->
  databases w !! path = Some catalog ->
  catalog !! "raw_events" = Some raw ->
  DuckDB.columns raw = raw_events_columns ->
  catalog !! "daily_summary" = Some stored ->
  DuckDB.columns stored = daily_summary_columns ->
  fst (load self df w) = Raise BinderException /\
  (databases (snd (load self df w)) !! path) ≫= (fun c => c !! "daily_summary") = Some stored /\
  (databases (snd (load self df w)) !! path) ≫= (fun c => c !! "raw_events")
  = Some {| DuckDB.columns := raw_events_columns;
            DuckDB.rows := (DuckDB.rows raw ++ DuckDB.rows (DuckDB.events_relation df))%list |} /\
  forall days, fst (get_summary self days (snd (load self df w))) = fst (get_summary self days w).
Proof.
  intros Hc Hd Hraw Hrcols Hsum Hscols.
  rewrite (load_refused self df w path catalog raw stored) by assumption.
  cbn [fst snd databases set_databases]. rewrite lookup_insert_eq. cbn [mbind option_bind].
  split; [reflexivity|]. split; [|split].
  - rewrite lookup_insert_ne by discriminate. exact Hsum.
  - rewrite lookup_insert_eq, Hrcols. reflexivity.
  - intros days.
    eapply (get_summary_depends_on_summary_table self days w _ path catalog);
      [ exact Hc | reflexivity | reflexivity | exact Hd
      | cbn [databases set_databases]; apply lookup_insert_eq
      | now rewrite lookup_insert_ne by discriminate ].
Qed.

Lemma load_raises_before_summary_is_stored_witness :
  fst (load Scenario.pipeline0 Scenario.frame_a Scenario.world1) = Raise BinderException /\
  fst (get_summary Scenario.pipeline0 30
         (snd (load Scenario.pipeline0 Scenario.frame_a Scenario.world1)))
  = fst (get_summary Scenario.pipeline0 30 Scenario.world1).
Proof.
  destruct (load_raises_before_summary_is_stored Scenario.pipeline0 Scenario.frame_a
              Scenario.world1 "analytics.db" (initialized ∅)
              {| DuckDB.columns := raw_events_columns; DuckDB.rows := [] |}
              {| DuckDB.columns := daily_summary_columns; DuckDB.rows := [] |})
    as (Hraise & _ & _ & Hsummary); try reflexivity.
  split; [exact Hraise | exact (Hsummary 30)].
Defined.

(** C4, what the code does. In the end-to-end scenario (a fresh database,
    the single row "a" in the source, today 2024-03-15) [run] raises
    [BinderException] instead of returning a result: the row is appended to
    [raw_events], no summary row is stored, and [get_summary(30)] called
    afterwards returns no row. *)
Theorem end_to_end_run_raises :
  fst (with_pipeline "config.json"
         (fun pipeline => run pipeline "data/input.parquet") Scenario.world0)
  = Raise BinderException /\
  (databases (snd (run Scenario.pipeline0 "data/input.parquet" Scenario.world1))
     !! "analytics.db") ≫= (fun c => DuckDB.rows <$> c !! "raw_events")
  = Some (DuckDB.rows (DuckDB.events_relation Scenario.frame_a)) /\
  DuckDB.rows <$> fst (with_pipeline "config.json" Scenario.run_then_summary Scenario.world0)
  = Ok [].
Proof. vm_compute. repeat split. Qed.

Lemma run_materializes_twice_witness :
  materializations
    (trace (snd (run Scenario.pipeline0 "data/input.parquet" Scenario.world1)))
  = (materializations (trace Scenario.world1) + 2)%nat.
Proof.
  exact (run_materializes_twice Scenario.pipeline0 "data/input.parquet" Scenario.world1
           [Scenario.row_a] eq_refl).
Defined.

End LoadClaims.

(** ** Packaging: deduplication and the generated index *)
Section Packaging.
Import BuildSkills.





Lemma sorted_items_names (seen : gmap string string) :
  Permutation (map fst (sorted_items seen)) (map fst (map_to_list seen)).
Proof. apply Permutation_map. unfold sorted_items. apply merge_sort_Permutation. Qed.

Lemma sorted_names_items (seen : gmap string string) :
  Permutation (sorted_names seen) (map fst (sorted_items seen)).
Proof.
  unfold sorted_names. rewrite merge_sort_Permutation. symmetry. apply sorted_items_names.
Qed.







End Packaging.

(** ** The aggregate frame and the summary query *)
Section Summary.
Import Polars Pipeline.

#[local] Instance by_date_total : Total by_date.
Proof.
  intros a b. unfold by_date, date_le.
  destruct (date a) as [x|], (date b) as [y|]; try tauto. lia.
Qed.





Variable self : DataPipeline.


End Summary.

Section SummaryExamples.
Import Polars Pipeline Scenario.


(** The stored row of 2024-03-01 is returned by [get_summary(30)] on
    2024-03-15 and no longer on 2024-05-01. *)
Example get_summary_window_on_the_scenario :
  DuckDB.rows <$> fst (get_summary pipeline0 30 world_later) = Ok [] /\
  DuckDB.rows <$> fst (get_summary pipeline0 30
                         {| files := files world_later; sources := sources world_later;
                            databases := databases world_later;
                            connections := connections world_later;
                            next_handle := next_handle world_later;
                            clock := Calendar.datetime 2024 3 15 12 0 0;
                            trace := trace world_later |})
  = Ok [ [ DuckDB.Date (Calendar.days_from_civil 2024 3 1);
           DuckDB.Varchar "click"; DuckDB.Double 5%float; DuckDB.BigInt 1 ] ].
Proof. vm_compute. split; reflexivity. Qed.

End SummaryExamples.

(** * Further properties of the pipeline *)

Section TransformCharacterization.
Import Polars Pipeline.



End TransformCharacterization.

Section RunOutcome.
Import Polars Pipeline.

Variable self : DataPipeline.

(** One [run], step by step: the log line, the first materialization, and
    then either the failure of a stage, logged and raised again, or the
    result of [load], logged and returned. *)
Lemma run_unfold (source_path : string) (w : World) :
  run self source_path w =
  let w1 := emit Collect (emit (LogInfo (Starting source_path)) w) in
  match sources w !! source_path with
  | None => (Raise FileNotFoundError, emit (LogError (Failed FileNotFoundError)) w1)
  | Some rows =>
      let w3 := emit Collect (emit (LogInfo (SourceRows (len rows))) w1) in
      match evaluate (transform self (extract self source_path)) (sources w) with
      | Raise e => (Raise e, emit (LogError (Failed e)) w3)
      | Ok out =>
          match load self out w3 with
          | (Ok r, w5) => (Ok r, emit (LogInfo (Completed r)) w5)
          | (Raise e, w5) => (Raise e, emit (LogError (Failed e)) w5)
          end
      end
  end.
Proof.
  cbv zeta. unfold run. rewrite bind_run.
  change (logger_info (Starting source_path) w)
    with (Ok tt, emit (LogInfo (Starting source_path)) w).
  cbv beta iota. unfold try_except. rewrite bind_run.
  change (collect (extract self source_path) (emit (LogInfo (Starting source_path)) w))
    with (evaluate (extract self source_path) (sources w),
          emit Collect (emit (LogInfo (Starting source_path)) w)).
  rewrite evaluate_extract.
  destruct (sources w !! source_path) as [rows|]; [|reflexivity].
  cbv beta iota. rewrite bind_run.
  set (w1 := emit Collect (emit (LogInfo (Starting source_path)) w)).
  change (logger_info (SourceRows (len rows)) w1)
    with (Ok tt, emit (LogInfo (SourceRows (len rows))) w1).
  cbv beta iota. rewrite bind_run.
  change (collect (transform self (extract self source_path))
            (emit (LogInfo (SourceRows (len rows))) w1))
    with (evaluate (transform self (extract self source_path)) (sources w),
          emit Collect (emit (LogInfo (SourceRows (len rows))) w1)).
  destruct (evaluate (transform self (extract self source_path)) (sources w)) as [out|e];
    [|reflexivity].
  cbv beta iota. rewrite bind_run.
  destruct (load self out _) as [[r|e] w5]; reflexivity.
Qed.

Lemma evaluate_transform_missing_source (source_path : string) srcs :
  srcs !! source_path = None ->
  evaluate (transform self (extract self source_path)) srcs = Raise FileNotFoundError.
Proof. intros H. now rewrite evaluate_transform, evaluate_extract, H. Qed.

Lemma filter_all {A} (l : list A) : List.filter (fun _ => true) l = l.
Proof. induction l as [|a l IH]; [reflexivity|]. cbn. now rewrite IH. Qed.

(** [load] writes nothing to the trace and leaves the sources as they are. *)
Lemma load_keeps_trace (df : list EventRow) (w : World) :
  trace (snd (load self df w)) = trace w.
Proof.
  pose proof (load_emits_no self (fun _ => true) df w) as H.
  now rewrite !filter_all in H.
Qed.

(** X4. The trace of one [run]: the starting line and one materialization;
    when the source can be read, the row-count line and a second
    materialization; and last, exactly one line for the outcome, an info
    line with the result when [run] returns it, an error line with the
    exception when [run] raises it. An exception of the materialization is
    raised again unchanged, and otherwise [run] returns or raises what
    [load] returns or raises. *)
Theorem run_logs_its_outcome_and_reraises (source_path : string) (w : World) :
  trace (snd (run self source_path w))
  = (trace w
     ++ [LogInfo (Starting source_path); Collect]
     ++ match sources w !! source_path with
        | Some rows => [LogInfo (SourceRows (len rows)); Collect]
        | None => []
        end
     ++ [match fst (run self source_path w) with
         | Ok r => LogInfo (Completed r)
         | Raise e => LogError (Failed e)
         end])%list /\
  match evaluate (transform self (extract self source_path)) (sources w) with
  | Raise e => fst (run self source_path w) = Raise e
  | Ok out =>
      exists w3, fst (run self source_path w) = fst (load self out w3) /\
                 databases w3 = databases w /\ connections w3 = connections w
  end.
Proof.
  rewrite run_unfold. cbv zeta.
  destruct (sources w !! source_path) as [rows|] eqn:Hs.
  - destruct (evaluate (transform self (extract self source_path)) (sources w)) as [out|e].
    + pose proof (load_keeps_trace out
                    (emit Collect (emit (LogInfo (SourceRows (len rows)))
                       (emit Collect (emit (LogInfo (Starting source_path)) w))))) as Ht.
      split.
      * destruct (load self out _) as [[r|e] w5]; cbn [fst snd trace emit] in *;
          rewrite Ht; now rewrite <- !app_assoc.
      * exists (emit Collect (emit (LogInfo (SourceRows (len rows)))
                  (emit Collect (emit (LogInfo (Starting source_path)) w)))).
        split; [|split; reflexivity].
        now destruct (load self out _) as [[r|e] w5].
    + split; [|reflexivity]. cbn [fst snd trace emit]. now rewrite <- !app_assoc.
  - rewrite (evaluate_transform_missing_source _ _ Hs).
    split; [|reflexivity]. cbn [fst snd trace emit]. now rewrite <- !app_assoc.
Qed.


End RunOutcome.

Section RunOutcomeExamples.
Import Polars Pipeline Scenario.


End RunOutcomeExamples.

Section RunStores.
Import Polars Pipeline.

Variable self : DataPipeline.

Lemma databases_set_databases dbs (w : World) : databases (set_databases dbs w) = dbs.
Proof. reflexivity. Qed.

Lemma insert_select_star_other (name : string) rel (catalog catalog' : gmap string DuckDB.table) n :
  DuckDB.insert_select_star name rel catalog = Ok catalog' ->
  n <> name -> catalog' !! n = catalog !! n.
Proof.
  unfold DuckDB.insert_select_star. intros H Hn.
  destruct (catalog !! name) as [t|]; [|discriminate].
  destruct (decide _); [|discriminate].
  injection H as <-. now apply lookup_insert_ne.
Qed.

(** What [load] does to the stores, whatever becomes of the insert into
    [daily_summary]: the frame is appended to [raw_events] in the connected
    database, and no other database is touched. *)
Lemma load_raw_events_effect (df : list EventRow) (w : World) path catalog raw :
  connections w !! duckdb self = Some path ->
  databases w !! path = Some catalog ->
  catalog !! "raw_events" = Some raw ->
  DuckDB.columns raw = raw_events_columns ->
  (exists catalog',
      databases (snd (load self df w)) !! path = Some catalog' /\
      catalog' !! "raw_events"
      = Some {| DuckDB.columns := raw_events_columns;
                DuckDB.rows := (DuckDB.rows raw
                                ++ DuckDB.rows (DuckDB.events_relation df))%list |}) /\
  (forall p, p <> path -> databases (snd (load self df w)) !! p = databases w !! p).
Proof.
  intros Hc Hd Hraw Hcols. unfold load. rewrite bind_run.
  rewrite (insert_raw_events self df w path catalog raw) by assumption.
  cbv beta iota. rewrite bind_run. rewrite <- Hcols.
  set (catalog1 := <["raw_events" := _]> catalog).
  unfold sql_execute.
  change (connections (set_databases (<[path := catalog1]> (databases w)) w))
    with (connections w).
  change (databases (set_databases (<[path := catalog1]> (databases w)) w))
    with (<[path := catalog1]> (databases w)).
  rewrite Hc, lookup_insert_eq. cbn [default from_option Datatypes.id].
  destruct (DuckDB.insert_select_star "daily_summary" _ catalog1) as [catalog2|e] eqn:E.
  - cbv beta iota. rewrite bind_run. cbv [datetime_now mret M_ret]. cbv beta iota.
    cbn [snd]. rewrite databases_set_databases. split.
    + exists catalog2. split; [apply lookup_insert_eq|].
      rewrite (insert_select_star_other _ _ _ _ "raw_events" E) by discriminate.
      apply lookup_insert_eq.
    + intros p Hp. now rewrite !lookup_insert_ne by congruence.
  - cbv beta iota. cbn [snd]. rewrite databases_set_databases. split.
    + exists catalog1. split; apply lookup_insert_eq.
    + intros p Hp. now rewrite lookup_insert_ne by congruence.
Qed.

(** X6. When the transformed source materializes to the frame [out], one
    [run] appends exactly the rows of [out], in order, to the [raw_events]
    table of the connected database (the rows stored before stay, in
    place); no other database is touched; and every appended row has a
    value greater than 0 and a timestamp on or after 2024-01-01. This holds
    whether the run then returns or raises. *)
Theorem run_appends_the_transformed_rows
    (source_path : string) (w : World) path catalog raw out :
  connections w !! duckdb self = Some path ->
  databases w !! path = Some catalog ->
  catalog !! "raw_events" = Some raw ->
  DuckDB.columns raw = raw_events_columns ->
  evaluate (transform self (extract self source_path)) (sources w) = Ok out ->
  (exists catalog',
      databases (snd (run self source_path w)) !! path = Some catalog' /\
      catalog' !! "raw_events"
      = Some {| DuckDB.columns := raw_events_columns;
                DuckDB.rows := (DuckDB.rows raw
                                ++ DuckDB.rows (DuckDB.events_relation out))%list |}) /\
  (forall p, p <> path -> databases (snd (run self source_path w)) !! p = databases w !! p) /\
  (forall o, In o out ->
     (exists v, value o = Some v /\ float_gt v 0%float = true) /\
     (exists ts, timestamp o = Some ts /\ lower_bound <= ts)).
Proof.
  intros Hc Hd Hraw Hcols Hout.
  split; [|split; [|exact (transform_output_invariants self _ _ out Hout)]];
    rewrite run_unfold; cbv zeta;
    (destruct (sources w !! source_path) as [rows|] eqn:Hs;
     [|rewrite (evaluate_transform_missing_source self _ _ Hs) in Hout; discriminate]);
    rewrite Hout;
    set (w3 := emit Collect _);
    destruct (load_raw_events_effect out w3 path catalog raw Hc Hd Hraw Hcols)
      as [Hraw' Hother];
    destruct (load self out w3) as [[r|e] w5]; cbn [snd databases emit] in *;
    assumption.
Qed.

End RunStores.

Section RunStoresExample.
Import Polars Pipeline Scenario.

Lemma run_appends_the_transformed_rows_witness :
  exists catalog',
    databases (snd (run pipeline0 "data/nulls.csv" world1)) !! "analytics.db" = Some catalog' /\
    catalog' !! "raw_events"
    = Some {| DuckDB.columns := raw_events_columns;
              DuckDB.rows := DuckDB.rows (DuckDB.events_relation frame_a) |}.
Proof.
  exact (proj1 (run_appends_the_transformed_rows pipeline0 "data/nulls.csv" world1
                  "analytics.db" (initialized ∅)
                  {| DuckDB.columns := raw_events_columns; DuckDB.rows := [] |}
                  frame_a eq_refl eq_refl eq_refl eq_refl eq_refl)).
Defined.

End RunStoresExample.

Section WatermarkMonotone.
Import Polars Pipeline.

Variable self : DataPipeline.

Lemma get_watermark_timestamps (w : World) path catalog t col :
  connections w !! duckdb self = Some path ->
  databases w !! path = Some catalog ->
  catalog !! "raw_events" = Some t ->
  DuckDB.columns t = raw_events_columns ->
  map (DuckDB.cell_at 3) (DuckDB.rows t) = map DuckDB.timestamp_cell col ->
  get_watermark self "raw_events" w = (Ok (DuckDB.timestamp_cell (max_timestamp col)), w).
Proof.
  intros Hc Hd Ht Hcols Hcol.
  pose proof (get_watermark_read_only self "raw_events" w) as Hro.
  pose proof (get_watermark_value self w path catalog t Hc Hd Ht Hcols) as Hv.
  destruct (get_watermark self "raw_events" w) as [r w']. cbn [fst snd] in *.
  subst w'. f_equal. rewrite Hv, Hcol, sql_max_timestamps. cbv zeta.
  now destruct (max_timestamp col).
Qed.

(** X7. On a raw-events table whose timestamp column holds timestamps or
    nulls, the watermark is the largest non-null timestamp stored (absent
    when there is none), and a [load] never lowers it: after the load the
    watermark is the largest timestamp among the stored rows and the loaded
    frame, which is at least the watermark from before. *)
Theorem watermark_never_decreases
    (df : list EventRow) (w : World) path catalog t col :
  connections w !! duckdb self = Some path ->
  databases w !! path = Some catalog ->
  catalog !! "raw_events" = Some t ->
  DuckDB.columns t = raw_events_columns ->
  map (DuckDB.cell_at 3) (DuckDB.rows t) = map DuckDB.timestamp_cell col ->
  get_watermark self "raw_events" w
  = (Ok (DuckDB.timestamp_cell (max_timestamp col)), w) /\
  fst (get_watermark self "raw_events" (snd (load self df w)))
  = Ok (DuckDB.timestamp_cell (max_timestamp (col ++ map timestamp df))) /\
  (forall x, max_timestamp col = Some x ->
             exists y, max_timestamp (col ++ map timestamp df) = Some y /\ x <= y).
Proof.
  intros Hc Hd Ht Hcols Hcol.
  split; [now apply (get_watermark_timestamps w path catalog t)|]. split.
  - destruct (load_raw_events_effect self df w path catalog t Hc Hd Ht Hcols)
      as [(catalog' & Hd' & Ht') _].
    erewrite (get_watermark_timestamps (snd (load self df w)) path catalog');
      [reflexivity | | exact Hd' | exact Ht' | reflexivity |].
    + now rewrite (load_keeps_connections self df w).
    + cbn [DuckDB.rows]. rewrite map_app, Hcol, events_relation_timestamps.
      now rewrite <- map_app.
  - intros x Hx.
    destruct (max_timestamp_spec col) as [_ Hin].
    destruct (max_timestamp_spec (col ++ map timestamp df)) as [Hub _].
    apply Hub. apply in_or_app. left. now apply Hin.
Qed.

End WatermarkMonotone.

Section WatermarkMonotoneExample.
Import Polars Pipeline Scenario.

Lemma watermark_never_decreases_witness :
  fst (get_watermark pipeline0 "raw_events" (snd (load pipeline0 three_events world1)))
  = Ok (DuckDB.Timestamp (Calendar.datetime 2024 3 3 0 0 0)).
Proof.
  exact (proj1 (proj2 (watermark_never_decreases pipeline0 three_events world1
                         "analytics.db" (initialized ∅)
                         {| DuckDB.columns := raw_events_columns; DuckDB.rows := [] |}
                         [] eq_refl eq_refl eq_refl eq_refl eq_refl))).
Defined.

End WatermarkMonotoneExample.

Section ConstructionOutcome.
Import Pipeline.




End ConstructionOutcome.

Section AfterTheBlock.
Import Polars Pipeline.

Variable self : DataPipeline.

(** On a closed connection every statement is refused and changes nothing. *)
Lemma closed_methods (w : World) :
  connections w !! duckdb self = None ->
  _init_duckdb_tables self w = (Raise ConnectionException, w) /\
  (forall df, load self df w = (Raise ConnectionException, w)) /\
  (forall days, get_summary self days w = (Raise ConnectionException, w)) /\
  (forall table_name, get_watermark self table_name w = (Raise ConnectionException, w)).
Proof.
  intros Hc. repeat split; intros.
  - unfold _init_duckdb_tables. rewrite bind_run. unfold sql_execute. now rewrite Hc.
  - unfold load. rewrite bind_run. unfold sql_execute. now rewrite Hc.
  - unfold get_summary, sql_query. now rewrite Hc.
  - unfold get_watermark. rewrite bind_run. unfold sql_query. now rewrite Hc.
Qed.

Lemma closed_run (source_path : string) (w : World) :
  connections w !! duckdb self = None ->
  (exists e, fst (run self source_path w) = Raise e) /\
  databases (snd (run self source_path w)) = databases w.
Proof.
  intros Hc. rewrite run_unfold. cbv zeta.
  destruct (sources w !! source_path) as [rows|]; [|split; [now eexists | reflexivity]].
  destruct (evaluate _ _) as [out|e]; [|split; [now eexists | reflexivity]].
  set (w3 := emit Collect _).
  destruct (closed_methods w3 Hc) as (_ & Hload & _). rewrite Hload.
  split; [now eexists | reflexivity].
Qed.

End AfterTheBlock.

Section AfterTheBlockClaim.
Import Polars Pipeline.

(** The pipeline's connection is closed in the world a [with] statement
    leaves, whatever the body did. *)
Lemma with_pipeline_closes
    (config_path : string) (members : gmap string json) (path : string)
    (calls : list call) (w : World) :
  files w !! config_path = Some (JSONText (JObject members)) ->
  members !! "duckdb_path" = Some (JString path) ->
  connections w !! next_handle w = None ->
  connections (snd (with_pipeline config_path (fun pipeline => block pipeline calls) w))
    !! next_handle w = None.
Proof.
  intros Hf Hk Hfresh.
  unfold with_pipeline. rewrite init_cases, Hf, Hk.
  set (self := {| config := JObject members; duckdb := next_handle w |}).
  set (C := <[next_handle w := path]> (connections w)).
  set (L := lifecycle (trace (constructed path w))).
  assert (Hlive : live C L (constructed path w)) by (split; reflexivity).
  assert (Hopen : is_Some (C !! duckdb self)).
  { unfold C. cbn [duckdb self]. rewrite lookup_insert_eq. now eexists. }
  pose proof (block_keeps_state self C L Hopen calls _ (or_introl Hlive)) as Hbody.
  unfold __enter__.
  destruct (block self calls (constructed path w)) as [r w2]. cbn [snd] in Hbody.
  pose proof (exit_releases self C L Hopen w2 Hbody) as [Hc _].
  destruct (__exit__ self w2) as [[[]|e] w3]; cbn [snd] in *;
    rewrite Hc; apply lookup_delete_eq.
Qed.

(** X9. Once the [with] statement has ended (normally, by an exception or
    after an explicit shutdown), the pipeline object is unusable: its table
    initialization, [load], [get_summary] and [get_watermark] raise
    [ConnectionException] and change nothing, and [run] always raises and
    changes no database. *)
Theorem pipeline_is_unusable_after_the_block
    (config_path : string) (members : gmap string json) (path : string)
    (calls : list call) (w : World) :
  files w !! config_path = Some (JSONText (JObject members)) ->
  members !! "duckdb_path" = Some (JString path) ->
  connections w !! next_handle w = None ->
  let self := {| config := JObject members; duckdb := next_handle w |} in
  let w' := snd (with_pipeline config_path (fun pipeline => block pipeline calls) w) in
  _init_duckdb_tables self w' = (Raise ConnectionException, w') /\
  (forall df, load self df w' = (Raise ConnectionException, w')) /\
  (forall days, get_summary self days w' = (Raise ConnectionException, w')) /\
  (forall table_name, get_watermark self table_name w' = (Raise ConnectionException, w')) /\
  (forall source_path,
      (exists e, fst (run self source_path w') = Raise e) /\
      databases (snd (run self source_path w')) = databases w').
Proof.
  intros Hf Hk Hfresh self w'.
  pose proof (with_pipeline_closes config_path members path calls w Hf Hk Hfresh) as Hclosed.
  destruct (closed_methods self w' Hclosed) as (H1 & H2 & H3 & H4).
  repeat split; try assumption; now apply closed_run.
Qed.

Lemma pipeline_is_unusable_after_the_block_witness :
  get_summary Scenario.pipeline0 7
    (snd (with_pipeline "config.json"
            (fun pipeline => block pipeline [CallRun "data/input.parquet"]) Scenario.world0))
  = (Raise ConnectionException,
     snd (with_pipeline "config.json"
            (fun pipeline => block pipeline [CallRun "data/input.parquet"]) Scenario.world0)).
Proof.
  destruct (pipeline_is_unusable_after_the_block "config.json" _ "analytics.db"
              [CallRun "data/input.parquet"] Scenario.world0 eq_refl eq_refl eq_refl)
    as (_ & _ & H & _).
  exact (H 7).
Defined.

End AfterTheBlockClaim.

Section ReadSide.
Import Polars Pipeline.

Variable self : DataPipeline.



End ReadSide.

Section ReadSideExample.
Import Polars Pipeline Scenario.


End ReadSideExample.

(** * Further properties of the packaging step *)
Section Discovery.
Import BuildSkills.







End Discovery.

Section IndexOrder.
Import BuildSkills.

#[local] Instance name_le_trans : Transitive name_le.
Proof.
  intros a b c Hab Hbc. unfold name_le in *.
  apply Is_true_true. apply Is_true_true in Hab, Hbc.
  exact (transitivity (R := String.le) Hab Hbc).
Qed.

#[local] Instance name_le_total : Total name_le.
Proof. intros a b. unfold name_le. apply String.leb_total. Qed.

#[local] Instance name_le_antisym : AntiSymm (=) name_le.
Proof. intros a b Hab Hba. now apply String.leb_antisym. Qed.

#[local] Instance item_le_trans : Transitive item_le.
Proof. intros a b c. unfold item_le. apply name_le_trans. Qed.

#[local] Instance item_le_total : Total item_le.
Proof. intros a b. unfold item_le. apply name_le_total. Qed.

Lemma sorted_items_sorted (seen : gmap string string) :
  StronglySorted name_le (map fst (sorted_items seen)).
Proof.
  apply (StronglySorted_fmap fst item_le name_le); [now intros x y|].
  unfold sorted_items. apply StronglySorted_merge_sort; apply _.
Qed.

Lemma sorted_names_are_the_item_names (seen : gmap string string) :
  sorted_names seen = map fst (sorted_items seen).
Proof.
  apply (StronglySorted_unique name_le).
  - unfold sorted_names. apply StronglySorted_merge_sort; apply _.
  - apply sorted_items_sorted.
  - apply sorted_names_items.
Qed.

(** X13. The index agrees with the copies: after its two fixed heading
    lines, the third line gives the number of directories copied, and the
    entries that follow are the copied names in the order in which the
    directories were copied, which is ascending order of name. *)
Theorem index_lists_the_copies_in_order (found : list manifest) :
  readme (build_skills found)
  = String.concat ""
      ([ "# Generated Skills Directory" ++ nl ++ nl;
         "This directory is auto-generated from source. Do not edit manually." ++ nl ++ nl;
         "## " ++ pretty (length (copied (build_skills found))) ++ " Skills" ++ nl ++ nl ]
       ++ map entry (map fst (copied (build_skills found)))) /\
  StronglySorted name_le (map fst (copied (build_skills found))).
Proof.
  cbn [build_skills copied readme]. split; [|apply sorted_items_sorted].
  unfold readme_lines. rewrite sorted_names_are_the_item_names.
  set (seen := deduplicate (find_sources found)).
  assert (Hlen : length (sorted_items seen) = size seen).
  { rewrite <- length_map_to_list. apply Permutation_length.
    unfold sorted_items. apply merge_sort_Permutation. }
  now rewrite Hlen.
Qed.

End IndexOrder.

Section SkillCopy.
Import SkillTree.











End SkillCopy.

Section LoadOnMatchingTable.
Import Polars Pipeline.

Variable self : DataPipeline.


End LoadOnMatchingTable.

Section LoadOnMatchingTableExample.
Import Polars Pipeline Scenario.


End LoadOnMatchingTableExample.
